(** * Imgur downloader: a shallow embedding of
      [src/data_curation/downloading/imgur_downloader.py]

    The pure helpers ([clasify_url], [find_image_url_extension]) are Rocq
    functions over [string].  The three download operations are computations
    in a state-and-exception monad over a [World] (file system, log of HTTP
    calls, console), parameterised by an [Env] that answers for the external
    collaborators (HTTP client, image codec, HTML parser, [open] and the
    operating system's resolution of paths). *)

From Stdlib Require Import ZArith Ascii DecimalString.
From stdpp Require Import base option list gmap strings.

Local Open Scope char_scope.
Local Open Scope stdpp_scope.

(** ** Python values and exceptions *)

(** The values that flow through the module where the source is not uniformly
    typed: [clasify_url] returns a [str] or the [int] [-1], and
    [get_imgur_album_info] returns a [str] or [None]. *)
Inductive pyval : Type :=
  | PyNone
  | PyInt (z : Z)
  | PyStr (s : string).

(** Python's [==] on these values: values of different types are unequal. *)
Definition py_eq (a b : pyval) : bool :=
  match a, b with
  | PyNone, PyNone => true
  | PyInt x, PyInt y => Z.eqb x y
  | PyStr x, PyStr y => String.eqb x y
  | _, _ => false
  end.

(** An instance of (a subclass of) Python's [Exception]; [str(e)] is
    [exn_msg e]. *)
Record exn : Type := Exception { exn_msg : string }.

Inductive result (A : Type) : Type :=
  | Ret (a : A)
  | Raise (e : exn).
Arguments Ret {A} a.
Arguments Raise {A} e.

(** ** String primitives *)

Module PyStr.

(** [needle in hay] on [str]. *)
Fixpoint str_in (needle hay : string) : bool :=
  String.prefix needle hay ||
  match hay with
  | EmptyString => false
  | String _ hay' => str_in needle hay'
  end.

(** [s.split(sep)] for a one-character separator: never the empty list. *)
Fixpoint split (sep : ascii) (s : string) : list string :=
  match s with
  | EmptyString => [EmptyString]
  | String c s' =>
      if Ascii.eqb c sep then EmptyString :: split sep s'
      else match split sep s' with
           | x :: xs => String c x :: xs
           | [] => [String c EmptyString]
           end
  end.

(** [str(n)] for an [int]. *)
Definition str_of_int (z : Z) : string := NilZero.string_of_int (Z.to_int z).

(** [posixpath.join(a, b)] as [os.path.join] is used in the source. *)
Definition os_path_join (a b : string) : string :=
  if String.prefix "/" b then b
  else if String.eqb a "" || String.eqb (String.substring (String.length a - 1) 1 a) "/"
       then a +:+ b
       else a +:+ "/" +:+ b.

Fixpoint forallb (p : ascii -> bool) (s : string) : bool :=
  match s with
  | EmptyString => true
  | String c s' => p c && forallb p s'
  end.

(** The longest prefix of [s] whose characters satisfy [p], and the rest. *)
Fixpoint span (p : ascii -> bool) (s : string) : string * string :=
  match s with
  | String c s' =>
      if p c then let (run, rest) := span p s' in (String c run, rest)
      else (EmptyString, s)
  | EmptyString => (EmptyString, EmptyString)
  end.

End PyStr.

(** ** Regular expressions, as backtracking matchers

    A pattern is embedded as a matcher in continuation-passing style, which is
    how a backtracking engine such as Python's [re] explores a pattern: a
    matcher consumes a prefix of the input and hands the rest, together with
    the text of capture group 1, to its continuation; when the continuation
    fails the matcher tries its next alternative. *)

Module Re.

(** What a successful match reports: group 1 and the input after the match. *)
Definition found : Type := option string * string.
Definition cont : Type := option string -> string -> option found.
Definition matcher : Type := cont -> cont.

Definition is_alnum (c : ascii) : bool :=
  let n := nat_of_ascii c in
  (Nat.leb 97 n && Nat.leb n 122) || (Nat.leb 65 n && Nat.leb n 90)
  || (Nat.leb 48 n && Nat.leb n 57).

Definition LF : ascii := "010".

(** [.] without [re.DOTALL]: any character but a line feed. *)
Definition is_dot (c : ascii) : bool := negb (Ascii.eqb c LF).

(** One character of a class. *)
Definition chr (p : ascii -> bool) : matcher := fun k g s =>
  match s with
  | String c s' => if p c then k g s' else None
  | EmptyString => None
  end.

(** [c*], greedy: longest run first, then shorter ones. *)
Fixpoint star (p : ascii -> bool) (k : cont) (g : option string) (s : string)
  : option found :=
  match s with
  | String c s' =>
      if p c then
        match star p k g s' with
        | Some m => Some m
        | None => k g s
        end
      else k g s
  | EmptyString => k g s
  end.

(** [c+]. *)
Definition plus (p : ascii -> bool) : matcher := fun k => chr p (star p k).

Definition seq (r1 r2 : matcher) : matcher := fun k => r1 (r2 k).

(** [r?], greedy: first with [r], then without. *)
Definition opt (r : matcher) : matcher := fun k g s =>
  match r k g s with
  | Some m => Some m
  | None => k g s
  end.

(** [(r)] as capture group 1: the text [r] consumed. *)
Definition group1 (r : matcher) : matcher := fun k g s =>
  r (fun _ s' => k (Some (String.substring 0 (String.length s - String.length s') s)) s') g s.

(** [$] without [re.MULTILINE]: the end of the string, or just before a
    line feed that is the last character. *)
Definition eos : matcher := fun k g s =>
  match s with
  | EmptyString => k g s
  | String c EmptyString => if Ascii.eqb c LF then k g s else None
  | _ => None
  end.

(** A literal string. *)
Fixpoint lit (l : string) : matcher :=
  match l with
  | EmptyString => fun k => k
  | String c l' => seq (chr (Ascii.eqb c)) (lit l')
  end.

Definition match_at (r : matcher) (s : string) : option found :=
  r (fun g rest => Some (g, rest)) None s.

(** [re.search]: the match at the leftmost position that has one; the
    result also carries the text before the match. *)
Fixpoint search (r : matcher) (s : string) : option (string * found) :=
  match match_at r s with
  | Some m => Some (EmptyString, m)
  | None =>
      match s with
      | EmptyString => None
      | String c s' =>
          match search r s' with
          | Some (pre, m) => Some (String c pre, m)
          | None => None
          end
      end
  end.

(** [re.sub(r, repl, s, count=1)] for a replacement without escapes. *)
Definition sub_first (r : matcher) (repl s : string) : string :=
  match search r s with
  | Some (pre, (_, rest)) => pre +:+ repl +:+ rest
  | None => s
  end.

End Re.

(** ** The pure functions of the module *)

(** [clasify_url], lines 26-42. *)
Definition clasify_url (imgur_link : string) : pyval :=
  if PyStr.str_in "i.imgur.com" imgur_link then PyStr "image"
  else if PyStr.str_in "/a/" imgur_link || PyStr.str_in "/gallery/" imgur_link
  then PyStr "album"
  else if PyStr.str_in "imgur.com" imgur_link then PyStr "post"
  else PyInt (-1).

(** The pattern of line 54, piece by piece: an escaped dot; capture group 1,
    one or more of [a-zA-Z0-9]; an optional non-capturing group made of an
    escaped question mark and any run of [.]; the anchor [$]. *)
Definition extension_pattern : Re.matcher :=
  Re.seq (Re.chr (Ascii.eqb "."))
    (Re.seq (Re.group1 (Re.plus Re.is_alnum))
       (Re.seq (Re.opt (Re.seq (Re.chr (Ascii.eqb "?")) (Re.star Re.is_dot)))
          Re.eos)).

(** [find_image_url_extension], lines 44-57.  Group 1 takes part in every
    match of the pattern ([search_extension_group] below), so
    [match.group(1)] is always a string and the second branch is never
    taken. *)
Definition find_image_url_extension (imgur_url : string) : string :=
  match Re.search extension_pattern imgur_url with
  | Some (_, (Some ext, _)) => ext
  | Some (_, (None, _)) => ""
  | None => "jpeg"
  end.

(** ** The world the download operations act on *)

(** An HTTP response as the source reads it: [status_code], the declared
    [Content-Type] header if any, and [content], whose evaluation reads the
    body and may itself raise (the direct fetch is made with [stream=True]). *)
Record response : Type := Response {
  status_code : Z;
  content_type_header : option string;
  content : result (list Byte.byte)
}.

(** [response.headers.get('Content-Type', '')]. *)
Definition headers_get_content_type (r : response) : string :=
  default "" (content_type_header r).

(** One band tuple of a decoded image, as [Image.getdata] yields them. *)
Definition pixel : Type := list Z.

(** The element found by [soup.find('meta', property='og:image')], reduced to
    what the source reads of it: its [content] attribute, if it has one. *)
Record meta_tag : Type := MetaTag { attr_content : option string }.

Inductive net_call : Type :=
  | SessionGet (url : pyval)     (* [http.get] on the retrying session *)
  | RequestsGet (url : pyval).   (* module-level [requests.get] *)

Record World : Type := MkWorld {
  fs : gmap string (list Byte.byte);   (* regular files, by resolved path *)
  net_log : list net_call;             (* calls of [get] so far, sent or not *)
  stdout : list string                 (* lines printed *)
}.

(** The external collaborators.  Each answers deterministically from its
    arguments; the HTTP client also sees the calls made before, so that a
    server may answer the same URL differently over time.

    [realpath] is the file a path names: what the operating system makes of
    the path as the program writes it (current directory, [.] and [..],
    repeated slashes, links).  Two paths with the same [realpath] are one
    file; [open], [Image.open] and [os.remove] all act on the file, not on
    the spelling of its path. *)
Record Env : Type := MkEnv {
  http_answer : list net_call -> net_call -> result response;
  open_wb_error : string -> option exn;          (* [open(path, 'wb')] refuses *)
  image_open_error : list Byte.byte -> option exn; (* [Image.open] cannot identify *)
  image_getdata : list Byte.byte -> result (list pixel);
  soup_find_og_image : list Byte.byte -> option meta_tag;
  realpath : string -> string
}.

(** State and exceptions: a computation maps a world to an outcome and the
    world it leaves, also when it raises. *)
Definition M (A : Type) : Type := World -> result A * World.

Definition ret {A} (a : A) : M A := fun w => (Ret a, w).
Definition raise {A} (e : exn) : M A := fun w => (Raise e, w).
Definition bind {A B} (m : M A) (k : A -> M B) : M B := fun w =>
  match m w with
  | (Ret a, w') => k a w'
  | (Raise e, w') => (Raise e, w')
  end.
(** [try: body except Exception as e: handler e]. *)
Definition try_except {A} (body : M A) (handler : exn -> M A) : M A := fun w =>
  match body w with
  | (Ret a, w') => (Ret a, w')
  | (Raise e, w') => handler e w'
  end.
Definition lift {A} (r : result A) : M A := fun w => (r, w).

Notation "x <~ m ;; k" := (bind m (fun x => k))
  (at level 100, m at next level, right associativity).

Section Operations.
Variable env : Env.

Definition net_get (c : net_call) : M response := fun w =>
  (http_answer env (net_log w) c,
   MkWorld (fs w) (net_log w ++ [c]) (stdout w)).

Definition fs_update (f : gmap string (list Byte.byte) -> gmap string (list Byte.byte))
  : M unit := fun w => (Ret tt, MkWorld (f (fs w)) (net_log w) (stdout w)).

(** [with open(path, 'wb') as out: out.write(body)], where [body] is an
    expression evaluated after the file has been opened, hence created or
    truncated; the file is closed either way. *)
Definition write_file (path : string) (body : result (list Byte.byte)) : M unit :=
  match open_wb_error env path with
  | Some e => raise e
  | None =>
      _ <~ fs_update (insert (realpath env path) []) ;;
      data <~ lift body ;;
      fs_update (insert (realpath env path) data)
  end.

(** [Image.open(path)]: the file must exist and be identified as an image;
    the handle is modelled by the bytes it will decode. *)
Definition Image_open (path : string) : M (list Byte.byte) := fun w =>
  match fs w !! realpath env path with
  | None =>
      (Raise (Exception ("[Errno 2] No such file or directory: '" +:+ path +:+ "'")), w)
  | Some data =>
      match image_open_error env data with
      | Some e => (Raise e, w)
      | None => (Ret data, w)
      end
  end.

(** [list(image.getdata())]. *)
Definition getdata (image : list Byte.byte) : M (list pixel) :=
  lift (image_getdata env image).

(** [os.remove(path)]. *)
Definition os_remove (path : string) : M unit := fun w =>
  match fs w !! realpath env path with
  | None =>
      (Raise (Exception ("[Errno 2] No such file or directory: '" +:+ path +:+ "'")), w)
  | Some _ => fs_update (delete (realpath env path)) w
  end.

(** [print(a, b)]. *)
Definition print2 (a b : string) : M unit := fun w =>
  (Ret tt, MkWorld (fs w) (net_log w) (stdout w ++ [a +:+ " " +:+ b])).

(** [find_image_url_extension(url)] where [url] may not be a [str]:
    [re.search] then raises a [TypeError]. *)
Definition call_find_image_url_extension (url : pyval) : M string :=
  match url with
  | PyStr u => ret (find_image_url_extension u)
  | _ => raise (Exception "expected string or bytes-like object")
  end.

Definition placeholder_path : string := "imgur_placeholder.jpg".

(** The [try] block of [download_imgur_image], lines 85-107; its value is
    the [status] at the end of the block. *)
Definition download_imgur_image_try
    (url : pyval) (image_id download_folder : string) : M string :=
  response <~ net_get (SessionGet url) ;;
  if Z.eqb (status_code response) 200 then
    let content_type := headers_get_content_type response in
    if PyStr.str_in "image" content_type then
      extension <~ call_find_image_url_extension url ;;
      let filename := image_id +:+ "." +:+ extension in
      let filepath := PyStr.os_path_join download_folder filename in
      _ <~ write_file filepath (content response) ;;
      downloaded_image <~ Image_open filepath ;;
      placeholder_image <~ Image_open placeholder_path ;;
      downloaded_data <~ getdata downloaded_image ;;
      placeholder_data <~ getdata placeholder_image ;;
      if bool_decide (downloaded_data = placeholder_data) then
        _ <~ os_remove filepath ;;
        ret "Failure: Placeholder image downloaded"
      else ret "success"
    else ret "Failure: Not an image"
  else ret ("Error " +:+ PyStr.str_of_int (status_code response)).

(** [download_imgur_image], lines 59-115. *)
Definition download_imgur_image
    (url : pyval) (image_id download_folder : string) (verbose : bool) : M string :=
  status <~ try_except (download_imgur_image_try url image_id download_folder)
              (fun exception => ret ("Failure: " +:+ exn_msg exception)) ;;
  let status := if py_eq url (PyStr "unrecovered") then "URL wasnt recovered" else status in
  _ <~ (if verbose then print2 image_id status else ret tt) ;;
  ret status.

(** The pattern of line 130: the literal [://imgur.] (its dot is escaped). *)
Definition post_pattern : Re.matcher := Re.lit "://imgur.".

(** [download_imgur_post], lines 117-135. *)
Definition download_imgur_post
    (url image_id download_folder : string) (verbose : bool) : M string :=
  if bool_decide (is_Some (Re.search post_pattern url)) then
    let image_url := Re.sub_first post_pattern "://i.imgur." url in
    attempt <~ download_imgur_image (PyStr (image_url +:+ ".jpeg"))
                 image_id download_folder verbose ;;
    ret attempt
  else ret "failed_to_convert_to_image_url".

(** [get_imgur_album_info], lines 137-169. *)
Definition get_imgur_album_info (album_url : string) : M pyval :=
  response <~ net_get (RequestsGet (PyStr album_url)) ;;
  if negb (Z.eqb (status_code response) 200) then ret PyNone
  else
    page <~ lift (content response) ;;
    match soup_find_og_image env page with
    | None => ret (PyStr "unrecovered")
    | Some meta_tag =>
        match attr_content meta_tag with
        | None => raise (Exception "'NoneType' object has no attribute 'split'")
        | Some c =>
            match PyStr.split "?" c with
            | image_url :: _ =>
                if String.eqb image_url "" then ret (PyStr "unrecovered")
                else ret (PyStr image_url)
            | [] => raise (Exception "list index out of range")
            end
        end
    end.

(** [download_imgur_album], lines 171-186. *)
Definition download_imgur_album
    (url image_id download_folder : string) (verbose : bool) : M string :=
  url_to_download <~ get_imgur_album_info url ;;
  attempt <~ download_imgur_image url_to_download image_id download_folder verbose ;;
  ret attempt.

End Operations.

(** ** Vocabulary of the specification *)

(** [needle] occurs in [hay]. *)
Definition contains (needle hay : string) : Prop :=
  exists pre post, hay = pre +:+ needle +:+ post.

(** [hay] splits around its leftmost occurrence of [needle]. *)
Definition first_occurrence (needle hay pre post : string) : Prop :=
  hay = pre +:+ needle +:+ post /\
  forall pre' post', hay = pre' +:+ needle +:+ post' ->
    String.length pre <= String.length pre'.

(** [seg] is what precedes the first question mark of [s], or all of [s]. *)
Definition first_segment (s seg : string) : Prop :=
  PyStr.forallb (fun c => negb (Ascii.eqb c "?")) seg = true /\
  (s = seg \/ exists rest, s = seg +:+ "?" +:+ rest).

(** A non-empty run of ASCII letters and digits. *)
Definition alnum_token (tok : string) : Prop :=
  tok <> "" /\ PyStr.forallb Re.is_alnum tok = true.

(** Nothing, or a query string: a question mark and what follows it. *)
Definition query_tail (q : string) : Prop :=
  q = "" \/ exists r, q = "?" +:+ r.

(** [url] ends with a dot, the token [tok] and an optional query string; the
    dot is preceded by [pre]. *)
Definition trailing_token (url pre tok : string) : Prop :=
  exists q, url = pre +:+ "." +:+ tok +:+ q /\ alnum_token tok /\ query_tail q.

(** The first such token of [url], scanning from the left. *)
Definition leftmost_token (url pre tok : string) : Prop :=
  trailing_token url pre tok /\
  forall pre' tok', trailing_token url pre' tok' ->
    String.length pre <= String.length pre'.

(** What the specification says of the extension resolver at [url]: the
    token if there is one, the default otherwise. *)
Definition extension_claim (url : string) : Prop :=
  (forall pre tok, leftmost_token url pre tok ->
     find_image_url_extension url = tok) /\
  ((forall pre tok, ~ trailing_token url pre tok) ->
   find_image_url_extension url = "jpeg").

(** No character of [s] is a line feed. *)
Definition no_line_feed (s : string) : Prop := PyStr.forallb Re.is_dot s = true.

(** The extension resolver as the specification words it: scan for the first
    dot that is followed by a token and then by the end of the URL or by a
    query string; the default when there is none. *)
Module Spec.

(** The end of the URL, or the start of a query string. *)
Definition query_or_end (q : string) : bool :=
  match q with
  | EmptyString => true
  | String d _ => Ascii.eqb d "?"
  end.

Definition token_here (s : string) : option string :=
  match s with
  | String c s' =>
      if Ascii.eqb c "." then
        match PyStr.span Re.is_alnum s' with
        | (String t tok, q) => if query_or_end q then Some (String t tok) else None
        | (EmptyString, _) => None
        end
      else None
  | EmptyString => None
  end.

Fixpoint scan (s : string) : option string :=
  match token_here s with
  | Some tok => Some tok
  | None => match s with
            | String _ s' => scan s'
            | EmptyString => None
            end
  end.

Definition extension_of (url : string) : string := default "jpeg" (scan url).

End Spec.

(** ** A sample environment, for the concrete runs below *)

Module Sample.

Definition png_body : list Byte.byte := [Byte.x89; Byte.x50; Byte.x4e; Byte.x47].
Definition placeholder_body : list Byte.byte := [Byte.xff; Byte.xd8; Byte.xff].
Definition html_body : list Byte.byte := [Byte.x3c; Byte.x68; Byte.x74].
Definition album_page : list Byte.byte := [Byte.x3c; Byte.x21].
Definition bare_page : list Byte.byte := [Byte.x3c; Byte.x70].
Definition query_page : list Byte.byte := [Byte.x3c; Byte.x71].

Definition ok (ctype : string) (body : list Byte.byte) : result response :=
  Ret (Response 200 (Some ctype) (Ret body)).

(** A server with a few resources; like [requests], the client refuses a
    URL without a scheme before it connects. *)
Definition answer (_ : list net_call) (c : net_call) : result response :=
  match c with
  | SessionGet (PyStr u) =>
      if negb (PyStr.str_in "://" u) then
        Raise (Exception ("Invalid URL '" +:+ u +:+ "': No scheme supplied"))
      else if String.eqb u "https://i.imgur.com/abc123.png" then ok "image/png" png_body
      else if String.eqb u "https://i.imgur.com/xyz.jpeg" then ok "image/jpeg" png_body
      else if String.eqb u "https://i.imgur.com/removed.jpg" then ok "image/jpeg" placeholder_body
      else if String.eqb u "https://i.imgur.com/broken.png" then ok "image/png" html_body
      else if String.eqb u "https://i.imgur.com/page.png" then ok "text/html" html_body
      else Ret (Response 404 (Some "text/html") (Ret html_body))
  | SessionGet _ => Raise (Exception "Invalid URL 'None': No scheme supplied")
  | RequestsGet (PyStr u) =>
      if String.eqb u "https://imgur.com/a/album1" then ok "text/html" album_page
      else if String.eqb u "https://imgur.com/a/bare" then ok "text/html" bare_page
      else if String.eqb u "https://imgur.com/a/query" then ok "text/html" query_page
      else if String.eqb u "https://imgur.com/a/down" then
        Raise (Exception "Connection aborted")
      else Ret (Response 404 (Some "text/html") (Ret html_body))
  | RequestsGet _ => Raise (Exception "Invalid URL 'None': No scheme supplied")
  end.

Definition identify (data : list Byte.byte) : option exn :=
  match data with
  | Byte.x89 :: _ | Byte.xff :: _ => None
  | _ => Some (Exception "cannot identify image file")
  end.

Definition decode (data : list Byte.byte) : result (list pixel) :=
  match data with
  | Byte.x89 :: _ => Ret [[10; 20; 30]; [40; 50; 60]]%Z
  | Byte.xff :: _ => Ret [[0; 0; 0]; [0; 0; 0]]%Z
  | _ => Raise (Exception "image file is truncated")
  end.

Definition og_image (page : list Byte.byte) : option meta_tag :=
  match page with
  | [Byte.x3c; Byte.x21] => Some (MetaTag (Some "https://i.imgur.com/abc123.png?fb"))
  | [Byte.x3c; Byte.x71] => Some (MetaTag (Some "?fb"))
  | _ => None
  end.

(** Paths are resolved from the current directory: a leading [./] names the
    same file as the path without it. *)
Fixpoint normalize (path : string) : string :=
  match path with
  | String c (String d rest) =>
      if Ascii.eqb c "." && Ascii.eqb d "/" then normalize rest else path
  | _ => path
  end.

Definition env : Env :=
  MkEnv answer
    (fun path => if String.prefix "out/" path then None
                 else Some (Exception "[Errno 2] No such file or directory"))
    identify decode og_image normalize.

(** A direct URL as read from a line of a file, line feed included. *)
Definition url_with_line_feed : string :=
  "https://i.imgur.com/abc123.png" +:+ String Re.LF "".

(** A direct URL with a line feed inside its query string. *)
Definition url_with_inner_line_feed : string :=
  "https://i.imgur.com/abc123.png?x=1" +:+ String Re.LF "y=2".

(** A world with the placeholder asset in place and nothing downloaded. *)
Definition world : World :=
  MkWorld {[ placeholder_path := placeholder_body ]} [] [].

End Sample.

(** No character of [s] is a question mark. *)
Definition no_question_mark (s : string) : Prop :=
  PyStr.forallb (fun c => negb (Ascii.eqb c "?")) s = true.

(** ** A second sample: a server that stalls after the headers *)

Module Stalled.

(** The body of the one resource cannot be read: the connection breaks once
    the headers have arrived. *)
Definition answer (_ : list net_call) (c : net_call) : result response :=
  match c with
  | SessionGet (PyStr u) =>
      if String.eqb u "https://i.imgur.com/stalled.png" then
        Ret (Response 200 (Some "image/png") (Raise (Exception "Connection broken")))
      else Ret (Response 404 (Some "text/html") (Ret Sample.html_body))
  | _ => Raise (Exception "Invalid URL 'None': No scheme supplied")
  end.

Definition env : Env :=
  MkEnv answer (fun _ => None) Sample.identify Sample.decode Sample.og_image
    Sample.normalize.

(** A world in which an earlier download is already at the target path. *)
Definition world : World :=
  MkWorld (<[ "out/img1.png" := Sample.png_body ]>
             {[ placeholder_path := Sample.placeholder_body ]}) [] [].

End Stalled.

(** ** What the HTTP client does before it sends

    [requests] prepares a request before any transport adapter is asked to
    send it: [Session.get] builds a [PreparedRequest], whose [prepare_url]
    takes [str(url)] and raises ([MissingSchema], or [InvalidURL]) when the
    text has no scheme.  A text without a colon has none, so a call of [get]
    with such a URL ends in an exception inside the client and reaches no
    transport. *)

(** [str(v)]. *)
Definition py_str (v : pyval) : string :=
  match v with
  | PyNone => "None"
  | PyInt z => PyStr.str_of_int z
  | PyStr s => s
  end.

Definition refused_before_send (url : pyval) : bool :=
  negb (PyStr.str_in ":" (py_str url)).

Definition call_url (c : net_call) : pyval :=
  match c with
  | SessionGet url => url
  | RequestsGet url => url
  end.

(** The calls of the log that were handed to a transport: the network
    calls.  The others ended inside the client. *)
Definition network_calls (log : list net_call) : list net_call :=
  List.filter (fun c => negb (refused_before_send (call_url c))) log.

(** An environment whose session answers as [requests] does to the URLs that
    are refused before sending. *)
Definition client_checks (env : Env) : Prop :=
  forall log url, refused_before_send url = true ->
    exists e, http_answer env log (SessionGet url) = Raise e.

(** ** A third sample: a download aimed at the placeholder asset *)

Module Aliased.

(** Every URL with a scheme is an image. *)
Definition answer (_ : list net_call) (c : net_call) : result response :=
  match c with
  | SessionGet (PyStr u) =>
      if PyStr.str_in "://" u then Sample.ok "image/jpeg" Sample.png_body
      else Raise (Exception ("Invalid URL '" +:+ u +:+ "': No scheme supplied"))
  | _ => Raise (Exception "Invalid URL 'None': No scheme supplied")
  end.

Definition env : Env :=
  MkEnv answer (fun _ => None) Sample.identify Sample.decode Sample.og_image
    Sample.normalize.

End Aliased.

(** Unfolds the operations of the [try] block down to the world. *)
Ltac unfold_ops :=
  unfold download_imgur_image_try, call_find_image_url_extension, write_file,
    Image_open, getdata, os_remove, net_get, fs_update, lift, bind, ret, raise.

(** * Properties *)

(** ** Strings *)

Section StringFacts.

Lemma app_cons c s t : String c s +:+ t = String c (s +:+ t).
Proof. reflexivity. Qed.

Lemma app_nil_l s : "" +:+ s = s.
Proof. reflexivity. Qed.

Lemma app_nil_r s : s +:+ "" = s.
Proof. induction s as [|c s IH]; [reflexivity|]. rewrite app_cons. by f_equal. Qed.

Lemma app_assoc' s t u : (s +:+ t) +:+ u = s +:+ t +:+ u.
Proof. induction s as [|c s IH]; [reflexivity|]. rewrite !app_cons. by f_equal. Qed.

Lemma app_length s t : String.length (s +:+ t) = String.length s + String.length t.
Proof. induction s as [|c s IH]; [reflexivity|]. rewrite app_cons. simpl. lia. Qed.

Lemma prefix_iff n h : String.prefix n h = true <-> exists post, h = n +:+ post.
Proof.
  revert h. induction n as [|c n IH]; intros h.
  - split; [intros _; by exists h|]. intros _. by destruct h.
  - destruct h as [|d h]; simpl.
    + split; [done|]. intros [post H]. rewrite app_cons in H. discriminate.
    + destruct (ascii_dec c d) as [->|Hne].
      * split.
        -- intros [post H]%IH. exists post. rewrite app_cons. by f_equal.
        -- intros [post H]. apply IH. exists post.
           rewrite app_cons in H. by injection H.
      * split; [done|]. intros [post H]. rewrite app_cons in H.
        injection H as ? ?. congruence.
Qed.

Lemma str_in_iff n h : PyStr.str_in n h = true <-> contains n h.
Proof.
  unfold contains. induction h as [|d h IH].
  - change (PyStr.str_in n "") with (String.prefix n "" || false).
    rewrite orb_false_r. split.
    + intros [post H]%prefix_iff. by exists "", post.
    + intros ([|c pre] & post & H).
      * apply prefix_iff. by exists post.
      * rewrite app_cons in H. discriminate.
  - change (PyStr.str_in n (String d h))
      with (String.prefix n (String d h) || PyStr.str_in n h).
    split.
    + intros [[post H]%prefix_iff|(pre & post & H)%IH]%orb_true_iff.
      * by exists "", post.
      * exists (String d pre), post. rewrite app_cons. by f_equal.
    + intros ([|c pre] & post & H); apply orb_true_iff.
      * left. apply prefix_iff. by exists post.
      * right. apply IH. rewrite app_cons in H. injection H as _ H.
        by exists pre, post.
Qed.

Lemma str_in_false_iff n h : PyStr.str_in n h = false <-> ~ contains n h.
Proof.
  split.
  - intros H Hc. apply str_in_iff in Hc. congruence.
  - intros H. destruct (PyStr.str_in n h) eqn:E; [|done].
    exfalso. apply H. by apply str_in_iff.
Qed.

Lemma forallb_app p s t :
  PyStr.forallb p (s +:+ t) = PyStr.forallb p s && PyStr.forallb p t.
Proof.
  induction s as [|c s IH]; [reflexivity|].
  rewrite app_cons. simpl. rewrite IH. by rewrite andb_assoc.
Qed.

End StringFacts.

(** ** Matchers *)

Section MatcherFacts.

Lemma lit_app l k g rest : Re.lit l k g (l +:+ rest) = k g rest.
Proof.
  induction l as [|c l IH]; [reflexivity|].
  rewrite app_cons. simpl. unfold Re.seq, Re.chr.
  by rewrite Ascii.eqb_refl.
Qed.

Lemma lit_no_prefix l k g s : String.prefix l s = false -> Re.lit l k g s = None.
Proof.
  revert s. induction l as [|c l IH]; intros s H.
  - by destruct s.
  - destruct s as [|d s]; [reflexivity|].
    simpl in *. unfold Re.seq, Re.chr.
    destruct (ascii_dec c d) as [->|Hne].
    + rewrite Ascii.eqb_refl. by apply IH.
    + by apply Ascii.eqb_neq in Hne as ->.
Qed.

Lemma search_nil r : Re.search r "" =
  match Re.match_at r "" with Some m => Some ("", m) | None => None end.
Proof. reflexivity. Qed.

Lemma search_cons r c s : Re.search r (String c s) =
  match Re.match_at r (String c s) with
  | Some m => Some ("", m)
  | None => match Re.search r s with
            | Some (pre, m) => Some (String c pre, m)
            | None => None
            end
  end.
Proof. reflexivity. Qed.

Lemma match_at_lit l s :
  Re.match_at (Re.lit l) s = None \/
  exists rest, s = l +:+ rest /\ Re.match_at (Re.lit l) s = Some (None, rest).
Proof.
  destruct (String.prefix l s) eqn:E.
  - right. apply prefix_iff in E as [rest ->]. exists rest.
    split; [done|]. unfold Re.match_at. by rewrite lit_app.
  - left. by apply lit_no_prefix.
Qed.

Lemma search_lit_first l s pre post :
  first_occurrence l s pre post ->
  Re.search (Re.lit l) s = Some (pre, (None, post)).
Proof.
  revert s. induction pre as [|c pre IH]; intros s [Hs Hmin].
  - rewrite app_nil_l in Hs. subst s.
    destruct (l +:+ post) as [|d t] eqn:E.
    + rewrite search_nil. unfold Re.match_at. by rewrite <- E, lit_app.
    + rewrite search_cons. unfold Re.match_at. by rewrite <- E, lit_app.
  - rewrite app_cons in Hs. subst s. rewrite search_cons.
    destruct (match_at_lit l (String c (pre +:+ l +:+ post)))
      as [->|(rest & Hrest & _)].
    + rewrite (IH (pre +:+ l +:+ post)); [done|]. split; [done|].
      intros pre' post' H'.
      specialize (Hmin (String c pre') post'). rewrite app_cons in Hmin.
      simpl in Hmin. rewrite H' in Hmin. specialize (Hmin eq_refl). lia.
    + specialize (Hmin "" rest). rewrite app_nil_l in Hmin.
      specialize (Hmin Hrest). simpl in Hmin. lia.
Qed.

Lemma search_lit_none l s :
  ~ contains l s -> Re.search (Re.lit l) s = None.
Proof.
  induction s as [|c s IH]; intros Hno.
  - rewrite search_nil.
    destruct (match_at_lit l "") as [->|(rest & Hrest & _)]; [done|].
    exfalso. apply Hno. by exists "", rest.
  - rewrite search_cons.
    destruct (match_at_lit l (String c s)) as [->|(rest & Hrest & _)].
    + rewrite IH; [done|]. intros (pre & post & H). apply Hno.
      exists (String c pre), post. rewrite app_cons. by f_equal.
    + exfalso. apply Hno. by exists "", rest.
Qed.

Lemma search_lit_some l s pre m :
  Re.search (Re.lit l) s = Some (pre, m) -> contains l s.
Proof.
  intros H. apply str_in_iff.
  destruct (PyStr.str_in l s) eqn:E; [done|].
  apply str_in_false_iff in E. apply search_lit_none in E. congruence.
Qed.

(** A greedy star whose continuation refuses every string that starts with a
    character of the class gives nothing back: it hands over what follows
    the longest run. *)
Lemma star_span p k g s :
  (forall c s', p c = true -> k g (String c s') = None) ->
  Re.star p k g s = k g (snd (PyStr.span p s)).
Proof.
  intros Hk. induction s as [|c s IH]; [reflexivity|].
  simpl. destruct (p c) eqn:Hc; [|reflexivity].
  rewrite IH. destruct (PyStr.span p s) as [run rest] eqn:E. simpl.
  destruct (k g rest) eqn:Ek; [done|]. by apply Hk.
Qed.

Lemma span_app p s :
  fst (PyStr.span p s) +:+ snd (PyStr.span p s) = s.
Proof.
  induction s as [|c s IH]; [reflexivity|].
  simpl. destruct (p c); [|reflexivity].
  destruct (PyStr.span p s) as [run rest]. simpl in *.
  rewrite app_cons. by f_equal.
Qed.

Lemma span_run p s : PyStr.forallb p (fst (PyStr.span p s)) = true.
Proof.
  induction s as [|c s IH]; [reflexivity|].
  simpl. destruct (p c) eqn:Hc; [|reflexivity].
  destruct (PyStr.span p s) as [run rest]. simpl in *. by rewrite Hc.
Qed.

Lemma span_rest p s c rest :
  snd (PyStr.span p s) = String c rest -> p c = false.
Proof.
  induction s as [|d s IH]; [discriminate|].
  simpl. destruct (p d) eqn:Hd.
  - destruct (PyStr.span p s) as [run rest']. simpl in *. exact IH.
  - simpl. intros [= -> _]. exact Hd.
Qed.

Lemma span_all p s :
  PyStr.forallb p s = true -> PyStr.span p s = (s, "").
Proof.
  induction s as [|c s IH]; [reflexivity|].
  simpl. intros [Hc Hs]%andb_true_iff. rewrite Hc, IH; done.
Qed.

Lemma span_decompose p run rest :
  PyStr.forallb p run = true ->
  match rest with String c _ => p c = false | EmptyString => True end ->
  PyStr.span p (run +:+ rest) = (run, rest).
Proof.
  intros Hrun Hrest. induction run as [|c run IH].
  - rewrite app_nil_l. destruct rest as [|d rest]; [reflexivity|].
    simpl. by rewrite Hrest.
  - rewrite app_cons. simpl in *. apply andb_true_iff in Hrun as [Hc Hrun].
    rewrite Hc, IH; done.
Qed.

Lemma substring_prefix a b :
  String.substring 0 (String.length (a +:+ b) - String.length b) (a +:+ b) = a.
Proof.
  rewrite app_length.
  replace (String.length a + String.length b - String.length b)
    with (String.length a) by lia.
  induction a as [|c a IH].
  - rewrite app_nil_l. by destruct b.
  - rewrite app_cons. simpl. by f_equal.
Qed.

End MatcherFacts.

(** ** The extension pattern *)

Section ExtensionPattern.

Lemma alnum_not_special c :
  Re.is_alnum c = true ->
  Ascii.eqb "?" c = false /\ Ascii.eqb c Re.LF = false /\ Ascii.eqb c "." = false.
Proof. destruct c as [[] [] [] [] [] [] [] []]; vm_compute; by intros. Qed.

Lemma eos_refuses_dot g c s :
  Re.is_dot c = true -> Re.eos (fun g rest => Some (g, rest)) g (String c s) = None.
Proof.
  unfold Re.is_dot, Re.eos. intros H. apply negb_true_iff in H.
  destruct s; [by rewrite H|done].
Qed.

(** What follows the token: the optional query group and the anchor, on a
    string without line feed. *)
Lemma tail_match g q :
  no_line_feed q ->
  Re.seq (Re.opt (Re.seq (Re.chr (Ascii.eqb "?")) (Re.star Re.is_dot))) Re.eos
    (fun g rest => Some (g, rest)) g q
  = if Spec.query_or_end q then Some (g, "") else None.
Proof.
  unfold no_line_feed, Re.seq, Re.opt. intros Hq.
  destruct q as [|d r]; [reflexivity|].
  simpl in Hq. apply andb_true_iff in Hq as [Hd Hr].
  unfold Re.chr, Spec.query_or_end. rewrite (Ascii.eqb_sym d "?").
  destruct (Ascii.eqb "?" d).
  - rewrite star_span by (intros; by apply eos_refuses_dot).
    by rewrite (span_all _ _ Hr).
  - by apply eos_refuses_dot.
Qed.

Lemma tail_refuses_alnum g c s :
  Re.is_alnum c = true ->
  Re.seq (Re.opt (Re.seq (Re.chr (Ascii.eqb "?")) (Re.star Re.is_dot))) Re.eos
    (fun g rest => Some (g, rest)) g (String c s) = None.
Proof.
  intros (Hq & Hlf & _)%alnum_not_special.
  unfold Re.seq, Re.opt, Re.chr. rewrite Hq.
  apply eos_refuses_dot. unfold Re.is_dot. by rewrite Hlf.
Qed.

Lemma match_at_extension s :
  no_line_feed s ->
  Re.match_at extension_pattern s =
  (fun tok => (Some tok, "")) <$> Spec.token_here s.
Proof.
  unfold no_line_feed. intros Hs.
  destruct s as [|a s1]; [reflexivity|].
  simpl in Hs. apply andb_true_iff in Hs as [_ Hs1].
  unfold Re.match_at, extension_pattern, Spec.token_here.
  unfold Re.seq at 1. unfold Re.chr at 1.
  rewrite (Ascii.eqb_sym a "."). destruct (Ascii.eqb "." a); [|reflexivity].
  unfold Re.seq at 1. unfold Re.group1, Re.plus. unfold Re.chr at 1.
  destruct s1 as [|c s2]; [reflexivity|].
  simpl PyStr.span. destruct (Re.is_alnum c) eqn:Hc; [|reflexivity].
  rewrite star_span by (intros; by apply tail_refuses_alnum).
  pose proof (span_app Re.is_alnum s2) as Happ.
  destruct (PyStr.span Re.is_alnum s2) as [run rest] eqn:E. simpl in Happ.
  simpl snd. rewrite <- Happ at 1 2. rewrite <- app_cons, substring_prefix.
  rewrite tail_match; [by destruct (Spec.query_or_end rest)|].
  simpl in Hs1. apply andb_true_iff in Hs1 as [_ Hs2].
  rewrite <- Happ, forallb_app in Hs2. by apply andb_true_iff in Hs2 as [_ ?].
Qed.

Lemma find_image_url_extension_spec s :
  no_line_feed s -> find_image_url_extension s = Spec.extension_of s.
Proof.
  unfold find_image_url_extension, Spec.extension_of.
  induction s as [|c s IH]; intros Hs.
  - reflexivity.
  - rewrite search_cons, match_at_extension by done.
    assert (no_line_feed s) as Hs'.
    { unfold no_line_feed in *. simpl in Hs. by apply andb_true_iff in Hs as [_ ?]. }
    specialize (IH Hs').
    change (Spec.scan (String c s)) with
      (match Spec.token_here (String c s) with
       | Some tok => Some tok
       | None => Spec.scan s
       end).
    destruct (Spec.token_here (String c s)) as [tok|]; [reflexivity|].
    simpl. destruct (Re.search extension_pattern s) as [[pre [[ext|] rest]]|];
      exact IH.
Qed.

(** Group 1 takes part in every match of the pattern, on any string. *)
Lemma star_some p k g s m :
  Re.star p k g s = Some m -> exists s', k g s' = Some m.
Proof.
  induction s as [|c s IH]; simpl; [eauto|].
  destruct (p c); [|eauto].
  destruct (Re.star p k g s) as [m'|]; [|eauto].
  intros [= <-]. by apply IH.
Qed.

Lemma eos_keeps_group g s g' rest :
  Re.eos (fun g rest => Some (g, rest)) g s = Some (g', rest) -> g' = g.
Proof.
  unfold Re.eos. destruct s as [|c [|d s]]; [| |done].
  - by intros [= <- _].
  - destruct (Ascii.eqb c Re.LF); [|done]. by intros [= <- _].
Qed.

Lemma tail_keeps_group g q g' rest :
  Re.seq (Re.opt (Re.seq (Re.chr (Ascii.eqb "?")) (Re.star Re.is_dot))) Re.eos
    (fun g rest => Some (g, rest)) g q = Some (g', rest) ->
  g' = g.
Proof.
  unfold Re.seq, Re.opt.
  destruct (Re.chr _ _ g q) as [m|] eqn:E; [|apply eos_keeps_group].
  intros [= ->]. unfold Re.chr in E. destruct q as [|d r]; [done|].
  destruct (Ascii.eqb "?" d); [|done].
  apply star_some in E as [s' E]. by apply eos_keeps_group in E.
Qed.

Lemma match_at_extension_group s g rest :
  Re.match_at extension_pattern s = Some (g, rest) -> is_Some g.
Proof.
  unfold Re.match_at, extension_pattern.
  unfold Re.seq at 1. unfold Re.chr at 1.
  destruct s as [|a s1]; [done|]. destruct (Ascii.eqb "." a); [|done].
  unfold Re.seq at 1. unfold Re.group1, Re.plus. unfold Re.chr at 1.
  destruct s1 as [|c s2]; [done|]. destruct (Re.is_alnum c); [|done].
  intros [s' H]%star_some. cbv beta in H.
  apply tail_keeps_group in H. subst g. by eexists.
Qed.

Lemma search_extension_group s pre g rest :
  Re.search extension_pattern s = Some (pre, (g, rest)) -> is_Some g.
Proof.
  revert pre. induction s as [|c s IH]; intros pre.
  - rewrite search_nil.
    destruct (Re.match_at extension_pattern "") as [[g0 r0]|] eqn:E; [|done].
    intros [= _ <- _]. by apply match_at_extension_group in E.
  - rewrite search_cons.
    destruct (Re.match_at extension_pattern (String c s)) as [[g0 r0]|] eqn:E.
    + intros [= _ <- _]. by apply match_at_extension_group in E.
    + destruct (Re.search extension_pattern s) as [[pre' [g1 r1]]|]; [|done].
      intros [= _ <- <-]. by apply (IH pre').
Qed.

End ExtensionPattern.

(** ** The specification's scan, against its wording *)

Section SpecScan.

Lemma trailing_token_cons c s pre tok :
  trailing_token (String c s) (String c pre) tok <-> trailing_token s pre tok.
Proof.
  unfold trailing_token. split; intros (q & H & ?); exists q; (split; [|done]).
  - rewrite app_cons in H. by injection H.
  - rewrite app_cons. by f_equal.
Qed.

Lemma trailing_token_head s pre tok :
  trailing_token s pre tok ->
  match pre with
  | EmptyString => True
  | String c pre' => exists s', s = String c s' /\ trailing_token s' pre' tok
  end.
Proof.
  destruct pre as [|c pre']; [done|]. intros (q & H & ?).
  rewrite app_cons in H. eexists. split; [exact H|]. by exists q.
Qed.

Lemma token_here_iff s tok :
  Spec.token_here s = Some tok <-> trailing_token s "" tok.
Proof.
  unfold trailing_token, alnum_token, query_tail. split.
  - destruct s as [|c s']; [done|]. unfold Spec.token_here.
    destruct (Ascii.eqb_spec c ".") as [->|]; [|done].
    pose proof (span_app Re.is_alnum s') as Happ.
    pose proof (span_run Re.is_alnum s') as Hrun.
    destruct (PyStr.span Re.is_alnum s') as [[|t run] q]; [done|].
    simpl in Happ, Hrun.
    destruct (Spec.query_or_end q) eqn:Hq; [|done]. intros [= <-].
    exists q. rewrite app_nil_l. split; [by rewrite <- Happ|]. split; [done|].
    destruct q as [|d r]; [by left|]. right. exists r.
    simpl in Hq. by apply Ascii.eqb_eq in Hq as ->.
  - intros (q & -> & [Hne Hal] & Hq). rewrite app_nil_l.
    change ("." +:+ tok +:+ q) with (String "." (tok +:+ q)).
    unfold Spec.token_here. rewrite Ascii.eqb_refl.
    rewrite span_decompose; [| done | by destruct Hq as [->|[r ->]]].
    destruct tok as [|t tok']; [done|].
    by destruct Hq as [->|[r ->]].
Qed.

Lemma scan_cons c s :
  Spec.scan (String c s) =
  match Spec.token_here (String c s) with
  | Some tok => Some tok
  | None => Spec.scan s
  end.
Proof. reflexivity. Qed.

Lemma scan_first s pre tok :
  trailing_token s pre tok ->
  (forall pre' tok', trailing_token s pre' tok' ->
     String.length pre <= String.length pre') ->
  Spec.scan s = Some tok.
Proof.
  revert s. induction pre as [|c pre IH]; intros s Htok Hmin.
  - apply token_here_iff in Htok.
    destruct s as [|c s]; [done|]. by rewrite scan_cons, Htok.
  - destruct (trailing_token_head _ _ _ Htok) as (s' & -> & Htok').
    rewrite scan_cons.
    destruct (Spec.token_here (String c s')) as [tok'|] eqn:E.
    + apply token_here_iff in E. apply Hmin in E. simpl in E. lia.
    + apply IH; [done|]. intros pre' tok' H'.
      apply (trailing_token_cons c) in H'. apply Hmin in H'. simpl in H'. lia.
Qed.

Lemma scan_none s :
  (forall pre tok, ~ trailing_token s pre tok) -> Spec.scan s = None.
Proof.
  induction s as [|c s IH]; intros Hno; [reflexivity|].
  rewrite scan_cons.
  destruct (Spec.token_here (String c s)) as [tok|] eqn:E.
  - apply token_here_iff in E. by apply Hno in E.
  - apply IH. intros pre tok H. apply (Hno (String c pre) tok).
    by apply trailing_token_cons.
Qed.

Lemma scan_none_inv s pre tok :
  Spec.scan s = None -> ~ trailing_token s pre tok.
Proof.
  revert s. induction pre as [|c pre IH]; intros s Hscan Htok.
  - apply token_here_iff in Htok.
    destruct s as [|c s]; [done|]. by rewrite scan_cons, Htok in Hscan.
  - destruct (trailing_token_head _ _ _ Htok) as (s' & -> & Htok').
    rewrite scan_cons in Hscan.
    destruct (Spec.token_here (String c s')); [done|]. by apply (IH s').
Qed.

End SpecScan.

(** ** Running the download operations *)

Section FetcherFacts.

Variable env : Env.

(** The world after one more HTTP call. *)
Lemma net_get_run c w :
  net_get env c w =
  (http_answer env (net_log w) c, MkWorld (fs w) (net_log w ++ [c]) (stdout w)).
Proof. reflexivity. Qed.

Lemma bind_ret_r {A} (m : M A) w : (x <~ m ;; ret x) w = m w.
Proof. unfold bind, ret. by destruct (m w) as [[a|e] w']. Qed.

(** [download_imgur_image] always returns: its status is that of the [try]
    block, or the handler's, unless the sentinel overrides it. *)
Lemma download_imgur_image_run url id folder verbose w :
  download_imgur_image env url id folder verbose w =
  let r := download_imgur_image_try env url id folder w in
  let st0 := match fst r with
             | Ret st => st
             | Raise e => "Failure: " +:+ exn_msg e
             end in
  let st := if py_eq url (PyStr "unrecovered") then "URL wasnt recovered" else st0 in
  (Ret st,
   if verbose
   then MkWorld (fs (snd r)) (net_log (snd r)) (stdout (snd r) ++ [id +:+ " " +:+ st])
   else snd r).
Proof.
  unfold download_imgur_image, bind, try_except, ret, print2.
  destruct (download_imgur_image_try env url id folder w) as [[st|e] w1];
    simpl; by destruct verbose.
Qed.

Lemma download_imgur_image_fs url id folder verbose w :
  fs (snd (download_imgur_image env url id folder verbose w)) =
  fs (snd (download_imgur_image_try env url id folder w)).
Proof. rewrite download_imgur_image_run. simpl. by destruct verbose. Qed.

Lemma download_imgur_image_net_log url id folder verbose w :
  net_log (snd (download_imgur_image env url id folder verbose w)) =
  net_log (snd (download_imgur_image_try env url id folder w)).
Proof. rewrite download_imgur_image_run. simpl. by destruct verbose. Qed.

(** The [try] block makes exactly one HTTP call, whatever its outcome. *)
Lemma try_net_log url id folder w :
  net_log (snd (download_imgur_image_try env url id folder w)) =
  net_log w ++ [SessionGet url].
Proof.
  unfold_ops. cbn [fs net_log stdout].
  repeat (case_match; simplify_eq/=; try done).
Qed.

Lemma try_transport_raises url id folder w e :
  http_answer env (net_log w) (SessionGet url) = Raise e ->
  download_imgur_image_try env url id folder w =
  (Raise e, MkWorld (fs w) (net_log w ++ [SessionGet url]) (stdout w)).
Proof. intros H. unfold download_imgur_image_try, bind. by rewrite net_get_run, H. Qed.

Lemma try_not_200 url id folder w resp :
  http_answer env (net_log w) (SessionGet url) = Ret resp ->
  status_code resp <> 200%Z ->
  download_imgur_image_try env url id folder w =
  (Ret ("Error " +:+ PyStr.str_of_int (status_code resp)),
   MkWorld (fs w) (net_log w ++ [SessionGet url]) (stdout w)).
Proof.
  intros H Hcode. unfold download_imgur_image_try, bind.
  rewrite net_get_run, H. by apply Z.eqb_neq in Hcode as ->.
Qed.

Lemma try_not_image url id folder w resp :
  http_answer env (net_log w) (SessionGet url) = Ret resp ->
  status_code resp = 200%Z ->
  PyStr.str_in "image" (headers_get_content_type resp) = false ->
  download_imgur_image_try env url id folder w =
  (Ret "Failure: Not an image",
   MkWorld (fs w) (net_log w ++ [SessionGet url]) (stdout w)).
Proof.
  intros H Hcode Himg. unfold download_imgur_image_try, bind.
  by rewrite net_get_run, H, Hcode, Himg.
Qed.

(** The image branch when nothing raises: the body is written, both images
    are decoded, and the file is removed again iff the pixel data agree.
    The placeholder asset is the one found once the body has been written. *)
Lemma try_image u id folder w resp body px ppx pbody :
  http_answer env (net_log w) (SessionGet (PyStr u)) = Ret resp ->
  status_code resp = 200%Z ->
  PyStr.str_in "image" (headers_get_content_type resp) = true ->
  let target := PyStr.os_path_join folder (id +:+ "." +:+ find_image_url_extension u) in
  content resp = Ret body ->
  open_wb_error env target = None ->
  image_open_error env body = None -> image_getdata env body = Ret px ->
  <[realpath env target := body]> (fs w) !! realpath env placeholder_path
    = Some pbody ->
  image_open_error env pbody = None -> image_getdata env pbody = Ret ppx ->
  download_imgur_image_try env (PyStr u) id folder w =
  if bool_decide (px = ppx)
  then (Ret "Failure: Placeholder image downloaded",
        MkWorld (delete (realpath env target)
                   (<[realpath env target := body]> (fs w)))
          (net_log w ++ [SessionGet (PyStr u)]) (stdout w))
  else (Ret "success",
        MkWorld (<[realpath env target := body]> (fs w))
          (net_log w ++ [SessionGet (PyStr u)]) (stdout w)).
Proof.
  intros Hget Hcode Himg target Hbody Hopen Hid Hpx Hpl Hpid Hppx.
  unfold download_imgur_image_try, bind. rewrite net_get_run, Hget, Hcode.
  simpl. rewrite Himg. simpl. fold target.
  unfold write_file. rewrite Hopen. unfold bind, fs_update, lift. simpl.
  rewrite Hbody, insert_insert_eq.
  unfold Image_open. cbn [fs]. rewrite lookup_insert_eq, Hid.
  cbn [fs]. rewrite Hpl, Hpid.
  unfold getdata, lift. rewrite Hpx, Hppx.
  destruct (bool_decide (px = ppx)); [|reflexivity].
  unfold os_remove, fs_update, ret. cbn [fs]. by rewrite lookup_insert_eq.
Qed.

(** The image branch when [Image.open] refuses the body: the exception leaves
    the [try] block with the file in place. *)
Lemma try_image_unidentified u id folder w resp body e :
  http_answer env (net_log w) (SessionGet (PyStr u)) = Ret resp ->
  status_code resp = 200%Z ->
  PyStr.str_in "image" (headers_get_content_type resp) = true ->
  let target := PyStr.os_path_join folder (id +:+ "." +:+ find_image_url_extension u) in
  content resp = Ret body ->
  open_wb_error env target = None ->
  image_open_error env body = Some e ->
  download_imgur_image_try env (PyStr u) id folder w =
  (Raise e,
   MkWorld (<[realpath env target := body]> (fs w))
     (net_log w ++ [SessionGet (PyStr u)]) (stdout w)).
Proof.
  intros Hget Hcode Himg target Hbody Hopen Hid.
  unfold download_imgur_image_try, bind. rewrite net_get_run, Hget, Hcode.
  simpl. rewrite Himg. simpl. fold target.
  unfold write_file. rewrite Hopen. unfold bind, fs_update, lift. simpl.
  rewrite Hbody, insert_insert_eq.
  unfold Image_open. cbn [fs]. by rewrite lookup_insert_eq, Hid.
Qed.

(** When the [try] block ends without an exception and without success, it
    leaves no file at the target path that was not there before. *)
Lemma try_failure_leaves_no_file u id folder w st w' :
  download_imgur_image_try env (PyStr u) id folder w = (Ret st, w') ->
  st <> "success" ->
  let target := PyStr.os_path_join folder (id +:+ "." +:+ find_image_url_extension u) in
  fs w !! realpath env target = None -> fs w' !! realpath env target = None.
Proof.
  intros Hrun Hst target Hfresh. revert Hrun. unfold_ops. cbn [fs net_log stdout].
  fold target.
  repeat (case_match; simplify_eq/=; try done); intros; simplify_eq/=; try done.
  all: by rewrite lookup_delete_eq.
Qed.

(** The album page request, and what is read off the page. *)
Lemma album_info_request_raises url w e :
  http_answer env (net_log w) (RequestsGet (PyStr url)) = Raise e ->
  get_imgur_album_info env url w =
  (Raise e, MkWorld (fs w) (net_log w ++ [RequestsGet (PyStr url)]) (stdout w)).
Proof. intros H. unfold get_imgur_album_info, bind. by rewrite net_get_run, H. Qed.

Lemma album_info_not_200 url w resp :
  http_answer env (net_log w) (RequestsGet (PyStr url)) = Ret resp ->
  status_code resp <> 200%Z ->
  get_imgur_album_info env url w =
  (Ret PyNone, MkWorld (fs w) (net_log w ++ [RequestsGet (PyStr url)]) (stdout w)).
Proof.
  intros H Hcode. unfold get_imgur_album_info, bind.
  rewrite net_get_run, H. by apply Z.eqb_neq in Hcode as ->.
Qed.

Lemma album_info_200 url w resp page :
  http_answer env (net_log w) (RequestsGet (PyStr url)) = Ret resp ->
  status_code resp = 200%Z ->
  content resp = Ret page ->
  fst (get_imgur_album_info env url w) =
  match soup_find_og_image env page with
  | None => Ret (PyStr "unrecovered")
  | Some meta_tag =>
      match attr_content meta_tag with
      | None => Raise (Exception "'NoneType' object has no attribute 'split'")
      | Some c =>
          match PyStr.split "?" c with
          | image_url :: _ =>
              if String.eqb image_url "" then Ret (PyStr "unrecovered")
              else Ret (PyStr image_url)
          | [] => Raise (Exception "list index out of range")
          end
      end
  end.
Proof.
  intros H Hcode Hpage. unfold get_imgur_album_info, bind.
  rewrite net_get_run, H, Hcode. simpl. unfold lift. rewrite Hpage.
  repeat (case_match; simplify_eq/=; try done).
Qed.

Lemma download_imgur_album_run url id folder verbose w :
  download_imgur_album env url id folder verbose w =
  match get_imgur_album_info env url w with
  | (Ret url_to_download, w1) =>
      download_imgur_image env url_to_download id folder verbose w1
  | (Raise e, w1) => (Raise e, w1)
  end.
Proof.
  unfold download_imgur_album. unfold bind at 1.
  destruct (get_imgur_album_info env url w) as [[v|e] w1]; [|done].
  apply bind_ret_r.
Qed.

End FetcherFacts.

(** ** Splitting and searching, against the specification's wording *)

Section SplitFacts.

Lemma split_first_segment s seg :
  first_segment s seg -> exists rest, PyStr.split "?" s = seg :: rest.
Proof.
  revert s. induction seg as [|a seg IH]; intros s [Hseg Hs].
  - destruct Hs as [->|[rest ->]]; [by exists []|].
    rewrite app_nil_l.
    change ("?" +:+ rest) with (String "?" rest). simpl. eauto.
  - simpl in Hseg. apply andb_true_iff in Hseg as [Ha Hseg].
    apply negb_true_iff in Ha.
    assert (exists s', s = String a s' /\ first_segment s' seg) as (s' & -> & Hs').
    { destruct Hs as [->|[rest ->]].
      - exists seg. split; [done|]. split; [done|]. by left.
      - exists (seg +:+ "?" +:+ rest). rewrite app_cons. split; [done|].
        split; [done|]. right. by exists rest. }
    destruct (IH _ Hs') as [rest Hrest]. simpl. rewrite Ha, Hrest. eauto.
Qed.

Lemma search_lit_sound l s pre g post :
  Re.search (Re.lit l) s = Some (pre, (g, post)) -> first_occurrence l s pre post.
Proof.
  revert pre. induction s as [|c s IH]; intros pre.
  - rewrite search_nil.
    destruct (match_at_lit l "") as [->|(rest & Hrest & ->)]; [done|].
    intros [= <- <- <-]. split; [done|]. intros; simpl; lia.
  - rewrite search_cons.
    destruct (match_at_lit l (String c s)) as [Hnone|(rest & Hrest & ->)].
    + rewrite Hnone.
      destruct (Re.search (Re.lit l) s) as [[pre' [g' post']]|] eqn:E; [|done].
      intros [= <- <- <-]. destruct (IH _ eq_refl) as [Hs Hmin]. split.
      * rewrite app_cons. by f_equal.
      * intros [|d pre''] post'' H.
        -- rewrite app_nil_l in H. unfold Re.match_at in Hnone.
           rewrite H, lit_app in Hnone. discriminate.
        -- rewrite app_cons in H. injection H as _ H.
           apply Hmin in H. simpl. lia.
    + intros [= <- <- <-]. split; [done|]. intros; simpl; lia.
Qed.

End SplitFacts.

(** * The claims *)

(** ** The classifier *)

(** C6: [clasify_url] is a total function that applies its rules in priority
    order, first match winning: the CDN marker gives the direct-image label;
    otherwise an album or gallery segment gives the album label; otherwise the
    generic domain gives the post label; otherwise the unclassified value.
    As a function of the URL alone it reads and changes no world. *)
Theorem clasify_url_priority (url : string) :
  (contains "i.imgur.com" url -> clasify_url url = PyStr "image") /\
  (~ contains "i.imgur.com" url ->
   contains "/a/" url \/ contains "/gallery/" url ->
   clasify_url url = PyStr "album") /\
  (~ contains "i.imgur.com" url ->
   ~ contains "/a/" url -> ~ contains "/gallery/" url ->
   contains "imgur.com" url ->
   clasify_url url = PyStr "post") /\
  (~ contains "i.imgur.com" url ->
   ~ contains "/a/" url -> ~ contains "/gallery/" url ->
   ~ contains "imgur.com" url ->
   clasify_url url = PyInt (-1)).
Proof.
  unfold clasify_url. repeat split.
  - intros H%str_in_iff. by rewrite H.
  - intros H%str_in_false_iff [Ha%str_in_iff|Hg%str_in_iff]; rewrite H.
    + by rewrite Ha.
    + rewrite Hg. by rewrite orb_true_r.
  - intros H%str_in_false_iff Ha%str_in_false_iff Hg%str_in_false_iff
      Hp%str_in_iff.
    by rewrite H, Ha, Hg, Hp.
  - intros H%str_in_false_iff Ha%str_in_false_iff Hg%str_in_false_iff
      Hp%str_in_false_iff.
    by rewrite H, Ha, Hg, Hp.
Qed.

Lemma clasify_url_priority_witness :
  clasify_url "https://i.imgur.com/abc123.png" = PyStr "image" /\
  clasify_url "https://imgur.com/gallery/abc123" = PyStr "album" /\
  clasify_url "https://imgur.com/abc123" = PyStr "post" /\
  clasify_url "https://example.com/abc123.png" = PyInt (-1).
Proof.
  split; [|split; [|split]].
  - apply (clasify_url_priority "https://i.imgur.com/abc123.png").
    apply str_in_iff; reflexivity.
  - apply (clasify_url_priority "https://imgur.com/gallery/abc123").
    + apply str_in_false_iff; reflexivity.
    + right. apply str_in_iff; reflexivity.
  - apply (clasify_url_priority "https://imgur.com/abc123");
      first [apply str_in_false_iff; reflexivity | apply str_in_iff; reflexivity].
  - apply (clasify_url_priority "https://example.com/abc123.png");
      apply str_in_false_iff; reflexivity.
Defined.

(** C3, as the code has it: a URL with an album or gallery segment is
    classified as an album provided the CDN marker does not occur in it; when
    the marker does occur, the first rule wins and the URL is a direct image. *)
Theorem clasify_url_album (url : string) :
  contains "/a/" url \/ contains "/gallery/" url ->
  (~ contains "i.imgur.com" url -> clasify_url url = PyStr "album") /\
  (contains "i.imgur.com" url -> clasify_url url = PyStr "image").
Proof.
  unfold clasify_url. intros Halbum. split.
  - intros Hcdn%str_in_false_iff. rewrite Hcdn.
    destruct Halbum as [Ha%str_in_iff|Hg%str_in_iff].
    + by rewrite Ha.
    + rewrite Hg. by rewrite orb_true_r.
  - intros Hcdn%str_in_iff. by rewrite Hcdn.
Qed.

Lemma clasify_url_album_witness :
  clasify_url "https://imgur.com/a/abc123" = PyStr "album".
Proof.
  apply (clasify_url_album "https://imgur.com/a/abc123").
  - left. apply str_in_iff; reflexivity.
  - apply str_in_false_iff; reflexivity.
Defined.

(** C3 as stated fails: this URL has the album segment, and the CDN marker as
    well, and is not classified as an album. *)
Lemma clasify_url_album_decoy :
  ~ (contains "/a/" "https://i.imgur.com/a/abc123" \/
     contains "/gallery/" "https://i.imgur.com/a/abc123" ->
     clasify_url "https://i.imgur.com/a/abc123" = PyStr "album").
Proof.
  intros H. assert (contains "/a/" "https://i.imgur.com/a/abc123") as Ha.
  { apply str_in_iff; reflexivity. }
  specialize (H (or_introl Ha)). vm_compute in H. discriminate.
Qed.

(** C10: a URL that matches none of the three rules is classified as the
    integer [-1], which is not a string: compared with [==] against any
    string label, the result is never equal. *)
Theorem clasify_url_unclassified (url : string) :
  ~ contains "i.imgur.com" url ->
  ~ contains "/a/" url -> ~ contains "/gallery/" url ->
  ~ contains "imgur.com" url ->
  clasify_url url = PyInt (-1) /\
  forall label, py_eq (clasify_url url) (PyStr label) = false.
Proof.
  intros H1%str_in_false_iff H2%str_in_false_iff H3%str_in_false_iff
    H4%str_in_false_iff.
  unfold clasify_url. rewrite H1, H2, H3, H4. by split.
Qed.

Lemma clasify_url_unclassified_witness :
  clasify_url "https://example.com/x.png" = PyInt (-1) /\
  forall label, py_eq (clasify_url "https://example.com/x.png") (PyStr label) = false.
Proof.
  apply (clasify_url_unclassified "https://example.com/x.png");
    apply str_in_false_iff; reflexivity.
Defined.

(** ** The extension resolver *)

Lemma scan_sound s tok :
  Spec.scan s = Some tok -> exists pre, leftmost_token s pre tok.
Proof.
  unfold leftmost_token.
  induction s as [|c s IH]; [done|]. rewrite scan_cons.
  destruct (Spec.token_here (String c s)) as [tok0|] eqn:E.
  - intros [= ->]. exists "". split; [by apply token_here_iff|].
    intros; simpl; lia.
  - intros (pre & Htok & Hmin)%IH. exists (String c pre). split.
    + by apply trailing_token_cons.
    + intros [|d pre'] tok' H'.
      * apply token_here_iff in H'. congruence.
      * destruct (trailing_token_head _ _ _ H') as (s' & [= -> ->] & H'').
        apply Hmin in H''. simpl. lia.
Qed.

(** C9, as the code has it: on a URL without a line feed,
    [find_image_url_extension] returns, case preserved, the token of the
    first dot that is followed by a non-empty run of ASCII letters and digits
    and then by the end of the URL or by a query string, and the default
    [jpeg] when the URL has no such token; the two examples of the
    specification hold. *)
Theorem find_image_url_extension_token :
  (forall url, no_line_feed url -> extension_claim url) /\
  find_image_url_extension "https://i.imgur.com/abc123.png?x=1" = "png" /\
  find_image_url_extension "https://i.imgur.com/abc123" = "jpeg".
Proof.
  split; [|by split].
  intros url Hlf. unfold extension_claim.
  rewrite (find_image_url_extension_spec url Hlf).
  unfold Spec.extension_of. split.
  - intros pre tok [Htok Hmin]. by rewrite (scan_first url pre tok Htok Hmin).
  - intros Hno. by rewrite (scan_none url Hno).
Qed.

Lemma find_image_url_extension_token_witness :
  find_image_url_extension "https://i.imgur.com/abc123.PNG?x=1" = "PNG" /\
  find_image_url_extension "https://i.imgur.com/abc123" = "jpeg".
Proof.
  destruct find_image_url_extension_token as [H _]. split.
  - destruct (scan_sound "https://i.imgur.com/abc123.PNG?x=1" "PNG" eq_refl)
      as [pre Htok].
    exact (proj1 (H "https://i.imgur.com/abc123.PNG?x=1" eq_refl) pre "PNG" Htok).
  - apply (H "https://i.imgur.com/abc123" eq_refl).
    intros pre tok. by apply scan_none_inv.
Defined.

(** C9 as stated fails on URLs with a line feed, in both directions.  A URL
    that ends with a line feed has no trailing token, the line feed being
    neither the end of the URL nor the start of a query string, and yet the
    result is the token before it, not the default.  A URL whose query string
    contains a line feed has a trailing token, and yet the result is the
    default. *)
Lemma find_image_url_extension_line_feed :
  ~ extension_claim Sample.url_with_line_feed /\
  ~ extension_claim Sample.url_with_inner_line_feed.
Proof.
  split; intros [Htok Hnone].
  - assert (find_image_url_extension Sample.url_with_line_feed = "jpeg") as E.
    { apply Hnone. intros pre tok. by apply scan_none_inv. }
    vm_compute in E. discriminate.
  - destruct (scan_sound Sample.url_with_inner_line_feed "png" eq_refl)
      as [pre Hpre].
    apply Htok in Hpre. vm_compute in Hpre. discriminate.
Qed.

(** ** The post resolver *)

(** C7: when the URL contains [://imgur.], [download_imgur_post] replaces
    the first occurrence by [://i.imgur.], appends [.jpeg] and returns what
    [download_imgur_image] returns for that URL; when it does not, the result
    is [failed_to_convert_to_image_url] and the world, its log of HTTP calls
    included, is left as it was. *)
Theorem download_imgur_post_rewrites
    (env : Env) (url id folder : string) (verbose : bool) (w : World) :
  (forall pre post,
     first_occurrence "://imgur." url pre post ->
     download_imgur_post env url id folder verbose w =
     download_imgur_image env
       (PyStr (pre +:+ "://i.imgur." +:+ post +:+ ".jpeg")) id folder verbose w) /\
  (~ contains "://imgur." url ->
   download_imgur_post env url id folder verbose w =
   (Ret "failed_to_convert_to_image_url", w)).
Proof.
  unfold download_imgur_post, Re.sub_first, post_pattern. split.
  - intros pre post Hfirst. rewrite (search_lit_first _ _ _ _ Hfirst).
    rewrite bool_decide_eq_true_2 by eauto.
    rewrite bind_ret_r. by rewrite !app_assoc'.
  - intros Hno. rewrite (search_lit_none _ _ Hno).
    rewrite bool_decide_eq_false_2; [done|]. by intros [? ?].
Qed.

Lemma download_imgur_post_rewrites_witness :
  download_imgur_post Sample.env "https://imgur.com/xyz" "img1" "out" false Sample.world =
  download_imgur_image Sample.env (PyStr "https://i.imgur.com/xyz.jpeg")
    "img1" "out" false Sample.world /\
  download_imgur_post Sample.env "https://example.com/xyz" "img1" "out" false Sample.world =
  (Ret "failed_to_convert_to_image_url", Sample.world).
Proof.
  split.
  - apply (download_imgur_post_rewrites Sample.env "https://imgur.com/xyz"
             "img1" "out" false Sample.world) with (pre := "https") (post := "com/xyz").
    by apply (search_lit_sound _ _ _ None).
  - apply (download_imgur_post_rewrites Sample.env "https://example.com/xyz").
    apply str_in_false_iff; reflexivity.
Defined.

(** ** The album-info resolver *)

(** C8: given the response to the album page request, [get_imgur_album_info]
    returns [None] when the status is not 200; on a 200 page it returns
    [unrecovered] when the page has no Open-Graph image element, or when the
    first [?]-separated segment of the element's content attribute is empty,
    and otherwise that first segment. *)
Theorem get_imgur_album_info_cases
    (env : Env) (album_url : string) (w : World) (resp : response) :
  http_answer env (net_log w) (RequestsGet (PyStr album_url)) = Ret resp ->
  (status_code resp <> 200%Z ->
   fst (get_imgur_album_info env album_url w) = Ret PyNone) /\
  (status_code resp = 200%Z ->
   forall page, content resp = Ret page ->
     (soup_find_og_image env page = None ->
      fst (get_imgur_album_info env album_url w) = Ret (PyStr "unrecovered")) /\
     (forall c seg,
        soup_find_og_image env page = Some (MetaTag (Some c)) ->
        first_segment c seg ->
        (seg = "" ->
         fst (get_imgur_album_info env album_url w) = Ret (PyStr "unrecovered")) /\
        (seg <> "" ->
         fst (get_imgur_album_info env album_url w) = Ret (PyStr seg)))).
Proof.
  intros Hget. split.
  - intros Hcode. by rewrite (album_info_not_200 env _ _ _ Hget Hcode).
  - intros Hcode page Hpage.
    rewrite (album_info_200 env _ _ _ _ Hget Hcode Hpage). split.
    + by intros ->.
    + intros c seg -> [rest Hsplit]%split_first_segment. simpl.
      rewrite Hsplit. split.
      * by intros ->.
      * intros Hne. by apply String.eqb_neq in Hne as ->.
Qed.

Lemma get_imgur_album_info_cases_witness :
  fst (get_imgur_album_info Sample.env "https://imgur.com/a/missing" Sample.world)
    = Ret PyNone /\
  fst (get_imgur_album_info Sample.env "https://imgur.com/a/bare" Sample.world)
    = Ret (PyStr "unrecovered") /\
  fst (get_imgur_album_info Sample.env "https://imgur.com/a/query" Sample.world)
    = Ret (PyStr "unrecovered") /\
  fst (get_imgur_album_info Sample.env "https://imgur.com/a/album1" Sample.world)
    = Ret (PyStr "https://i.imgur.com/abc123.png").
Proof.
  split; [|split; [|split]].
  - apply (get_imgur_album_info_cases Sample.env "https://imgur.com/a/missing"
             Sample.world (Response 404 (Some "text/html") (Ret Sample.html_body)));
      [reflexivity | done].
  - apply (get_imgur_album_info_cases Sample.env "https://imgur.com/a/bare"
             Sample.world (Response 200 (Some "text/html") (Ret Sample.bare_page))
             eq_refl) with (page := Sample.bare_page); reflexivity.
  - apply (get_imgur_album_info_cases Sample.env "https://imgur.com/a/query"
             Sample.world (Response 200 (Some "text/html") (Ret Sample.query_page))
             eq_refl) with (page := Sample.query_page) (c := "?fb") (seg := "");
      [reflexivity | reflexivity | reflexivity | | reflexivity].
    split; [reflexivity|]. right. by exists "fb".
  - apply (get_imgur_album_info_cases Sample.env "https://imgur.com/a/album1"
             Sample.world (Response 200 (Some "text/html") (Ret Sample.album_page))
             eq_refl) with (page := Sample.album_page)
             (c := "https://i.imgur.com/abc123.png?fb");
      [reflexivity | reflexivity | reflexivity | | done].
    split; [reflexivity|]. right. by exists "fb".
Defined.

(** ** The direct fetcher *)

Lemma py_eq_str_false u s : u <> s -> py_eq (PyStr u) (PyStr s) = false.
Proof. intros H. by apply String.eqb_neq. Qed.

Lemma py_eq_true a b : py_eq a b = true -> a = b.
Proof.
  destruct a, b; simpl; try done.
  - by intros ->%Z.eqb_eq.
  - by intros ->%String.eqb_eq.
Qed.

(** C5: for a URL other than the sentinel whose request is answered with
    status 200.  If the declared content type contains [image], the body is
    read and written to the target path, and the body and the placeholder
    asset (as it is found when the two are compared) decode to different
    pixel sequences, then the status is [success] and the target file holds
    the whole body.  If the content type does not contain [image], the
    status is [Failure: Not an image] and the file system is unchanged.
    Files are told apart by [realpath], not by the spelling of their paths:
    when the target names the placeholder asset itself, the asset found at
    the comparison is the body just written and the pixel sequences agree. *)
Theorem download_imgur_image_on_200
    (env : Env) (u id folder : string) (verbose : bool) (w : World)
    (resp : response) :
  u <> "unrecovered" ->
  http_answer env (net_log w) (SessionGet (PyStr u)) = Ret resp ->
  status_code resp = 200%Z ->
  let target :=
    PyStr.os_path_join folder (id +:+ "." +:+ find_image_url_extension u) in
  let run := download_imgur_image env (PyStr u) id folder verbose w in
  (contains "image" (headers_get_content_type resp) ->
   forall body px ppx pbody,
     content resp = Ret body ->
     open_wb_error env target = None ->
     image_open_error env body = None -> image_getdata env body = Ret px ->
     <[realpath env target := body]> (fs w) !! realpath env placeholder_path
       = Some pbody ->
     image_open_error env pbody = None -> image_getdata env pbody = Ret ppx ->
     px <> ppx ->
     fst run = Ret "success" /\
     fs (snd run) !! realpath env target = Some body) /\
  (~ contains "image" (headers_get_content_type resp) ->
   fst run = Ret "Failure: Not an image" /\ fs (snd run) = fs w).
Proof.
  intros Hu Hget Hcode target run. subst run. split.
  - intros Himg%str_in_iff body px ppx pbody Hbody Hopen Hid Hpx Hpl Hpid
      Hppx Hdiff.
    rewrite download_imgur_image_fs, download_imgur_image_run.
    rewrite (try_image env u id folder w resp body px ppx pbody) by done.
    rewrite bool_decide_eq_false_2 by done. cbn [fst snd fs].
    rewrite py_eq_str_false by done. split; [done|].
    by rewrite lookup_insert_eq.
  - intros Himg%str_in_false_iff.
    rewrite download_imgur_image_fs, download_imgur_image_run.
    rewrite (try_not_image env _ id folder w resp) by done. cbn [fst snd fs].
    by rewrite py_eq_str_false.
Qed.

Lemma download_imgur_image_on_200_witness :
  (fst (download_imgur_image Sample.env (PyStr "https://i.imgur.com/abc123.png")
          "img1" "out" true Sample.world) = Ret "success" /\
   fs (snd (download_imgur_image Sample.env (PyStr "https://i.imgur.com/abc123.png")
          "img1" "out" true Sample.world)) !! "out/img1.png" = Some Sample.png_body) /\
  (fst (download_imgur_image Sample.env (PyStr "https://i.imgur.com/page.png")
          "img1" "out" true Sample.world) = Ret "Failure: Not an image" /\
   fs (snd (download_imgur_image Sample.env (PyStr "https://i.imgur.com/page.png")
          "img1" "out" true Sample.world)) = fs Sample.world).
Proof.
  split.
  - apply (download_imgur_image_on_200 Sample.env "https://i.imgur.com/abc123.png"
             "img1" "out" true Sample.world
             (Response 200 (Some "image/png") (Ret Sample.png_body)))
      with (px := [[10; 20; 30]; [40; 50; 60]]%Z) (ppx := [[0; 0; 0]; [0; 0; 0]]%Z)
           (pbody := Sample.placeholder_body);
      first [ reflexivity | discriminate
            | apply str_in_iff; reflexivity ].
  - apply (download_imgur_image_on_200 Sample.env "https://i.imgur.com/page.png"
             "img1" "out" true Sample.world
             (Response 200 (Some "text/html") (Ret Sample.html_body)));
      first [ reflexivity | discriminate
            | apply str_in_false_iff; reflexivity ].
Defined.

Lemma network_calls_app log log' :
  network_calls (log ++ log') = network_calls log ++ network_calls log'.
Proof. apply List.filter_app. Qed.

(** C2: with the sentinel [unrecovered] as URL the status is
    [URL wasnt recovered], for every identifier and folder, and no call
    reaches the network.  The sentinel is tested after the [try] block, so
    the session's [get] is called, once; the sentinel has no scheme, the
    client refuses it before any transport is asked to send, and the handler
    has caught the exception before the status is set. *)
Theorem download_imgur_image_unrecovered
    (env : Env) (id folder : string) (verbose : bool) (w : World) :
  fst (download_imgur_image env (PyStr "unrecovered") id folder verbose w)
    = Ret "URL wasnt recovered" /\
  network_calls
    (net_log (snd (download_imgur_image env (PyStr "unrecovered") id folder verbose w)))
    = network_calls (net_log w).
Proof.
  split.
  - by rewrite download_imgur_image_run.
  - rewrite download_imgur_image_net_log, try_net_log, network_calls_app.
    assert (network_calls [SessionGet (PyStr "unrecovered")] = []) as ->
      by reflexivity.
    apply List.app_nil_r.
Qed.

(** With a client that checks as [requests] does, the sentinel also leaves
    every file as it was. *)
Lemma download_imgur_image_unrecovered_files
    (env : Env) (id folder : string) (verbose : bool) (w : World) :
  client_checks env ->
  fs (snd (download_imgur_image env (PyStr "unrecovered") id folder verbose w))
    = fs w.
Proof.
  intros Hclient.
  destruct (Hclient (net_log w) (PyStr "unrecovered") eq_refl) as [e He].
  rewrite download_imgur_image_fs.
  by rewrite (try_transport_raises env _ id folder w e He).
Qed.

(** C1, at a failing input: the server answers 200 with an image content
    type and a body that is no image.  [Image.open] raises after the body
    has been written; the status is a failure and the file, absent before,
    is left at the target path. *)
Theorem download_imgur_image_leaves_file :
  fs Sample.world !! "out/img1.png" = None /\
  fst (download_imgur_image Sample.env (PyStr "https://i.imgur.com/broken.png")
         "img1" "out" false Sample.world)
    = Ret "Failure: cannot identify image file" /\
  fs (snd (download_imgur_image Sample.env (PyStr "https://i.imgur.com/broken.png")
         "img1" "out" false Sample.world)) !! "out/img1.png"
    = Some Sample.html_body.
Proof. by vm_compute. Qed.

(** ** The fetch boundary *)

(** C4, as the code has it: [download_imgur_image] and [download_imgur_post]
    always return a status, and an exception raised inside the fetcher's
    [try] block comes back as [Failure: ] followed by its message;
    [download_imgur_album] returns a status whenever [get_imgur_album_info]
    returns, but an exception raised by the album page request is not
    caught and reaches the caller. *)
Theorem exceptions_at_fetch_boundary
    (env : Env) (id folder : string) (verbose : bool) (w : World) :
  (forall url, exists st,
     fst (download_imgur_image env url id folder verbose w) = Ret st) /\
  (forall url e w1,
     download_imgur_image_try env url id folder w = (Raise e, w1) ->
     url <> PyStr "unrecovered" ->
     fst (download_imgur_image env url id folder verbose w)
       = Ret ("Failure: " +:+ exn_msg e)) /\
  (forall url, exists st,
     fst (download_imgur_post env url id folder verbose w) = Ret st) /\
  (forall url v w1,
     get_imgur_album_info env url w = (Ret v, w1) ->
     exists st, fst (download_imgur_album env url id folder verbose w) = Ret st) /\
  (forall url e,
     http_answer env (net_log w) (RequestsGet (PyStr url)) = Raise e ->
     fst (download_imgur_album env url id folder verbose w) = Raise e).
Proof.
  repeat split.
  - intros url. rewrite download_imgur_image_run. eauto.
  - intros url e w1 Htry Hurl. rewrite download_imgur_image_run, Htry.
    cbn [fst]. destruct (py_eq url (PyStr "unrecovered")) eqn:E; [|done].
    by apply py_eq_true in E.
  - intros url. unfold download_imgur_post. case_bool_decide; [|by eexists].
    rewrite bind_ret_r, download_imgur_image_run. eauto.
  - intros url v w1 Hinfo. rewrite download_imgur_album_run, Hinfo.
    rewrite download_imgur_image_run. eauto.
  - intros url e Hget. rewrite download_imgur_album_run.
    by rewrite (album_info_request_raises env _ _ _ Hget).
Qed.

Lemma exceptions_at_fetch_boundary_witness :
  fst (download_imgur_image Sample.env (PyStr "https://i.imgur.com/broken.png")
         "img1" "out" false Sample.world)
    = Ret ("Failure: " +:+ "cannot identify image file") /\
  (exists st, fst (download_imgur_album Sample.env "https://imgur.com/a/album1"
                     "img1" "out" false Sample.world) = Ret st) /\
  fst (download_imgur_album Sample.env "https://imgur.com/a/down"
         "img1" "out" false Sample.world) = Raise (Exception "Connection aborted").
Proof.
  pose proof (exceptions_at_fetch_boundary Sample.env "img1" "out" false Sample.world)
    as (_ & Hcaught & _ & Halbum & Hpage).
  split; [|split].
  - apply (Hcaught (PyStr "https://i.imgur.com/broken.png")
             (Exception "cannot identify image file")
             (snd (download_imgur_image_try Sample.env
                     (PyStr "https://i.imgur.com/broken.png") "img1" "out" Sample.world)));
      [by vm_compute | discriminate].
  - apply (Halbum "https://imgur.com/a/album1" (PyStr "https://i.imgur.com/abc123.png")
             (snd (get_imgur_album_info Sample.env "https://imgur.com/a/album1"
                     Sample.world))).
    by vm_compute.
  - apply (Hpage "https://imgur.com/a/down"). reflexivity.
Defined.

(** C4 as stated fails for [download_imgur_album]: when the album page
    request raises, no status is returned. *)
Lemma download_imgur_album_raises :
  ~ exists st,
      fst (download_imgur_album Sample.env "https://imgur.com/a/down"
             "img1" "out" false Sample.world) = Ret st.
Proof. intros [st H]. vm_compute in H. discriminate. Qed.

(** * Further properties of the code *)

(** ** The [try] block, case by case *)

Section TryFacts.

Variable env : Env.

Lemma try_stdout url id folder w :
  stdout (snd (download_imgur_image_try env url id folder w)) = stdout w.
Proof.
  unfold_ops. cbn [fs net_log stdout].
  repeat (case_match; simplify_eq/=; try done).
Qed.

(** Only the target path is ever written or removed. *)
Lemma try_frame url id folder w file :
  (forall u, url = PyStr u ->
     file <> realpath env
       (PyStr.os_path_join folder (id +:+ "." +:+ find_image_url_extension u))) ->
  fs (snd (download_imgur_image_try env url id folder w)) !! file = fs w !! file.
Proof.
  intros Hp. unfold_ops. cbn [fs net_log stdout].
  repeat (case_match; simplify_eq/=; try done);
    specialize (Hp _ eq_refl);
    rewrite ?lookup_delete_ne, ?lookup_insert_ne by done; done.
Qed.

Lemma try_success_inv url id folder w w' :
  download_imgur_image_try env url id folder w = (Ret "success", w') ->
  exists u resp body px pbody ppx,
    url = PyStr u /\
    http_answer env (net_log w) (SessionGet url) = Ret resp /\
    status_code resp = 200%Z /\
    PyStr.str_in "image" (headers_get_content_type resp) = true /\
    content resp = Ret body /\
    fs w' = <[realpath env
                (PyStr.os_path_join folder
                   (id +:+ "." +:+ find_image_url_extension u))
              := body]> (fs w) /\
    image_getdata env body = Ret px /\
    fs w' !! realpath env placeholder_path = Some pbody /\
    image_getdata env pbody = Ret ppx /\
    px <> ppx.
Proof.
  unfold_ops. cbn [fs net_log stdout].
  repeat (case_match; simplify_eq/=; try done); intros; simplify_eq/=.
  match goal with H : (_ =? _)%Z = true |- _ => apply Z.eqb_eq in H end.
  match goal with H : bool_decide _ = false |- _ =>
    apply bool_decide_eq_false in H end.
  rewrite insert_insert_eq in *.
  match goal with H : <[?t:=?b]> _ !! ?t = Some _ |- _ =>
    rewrite lookup_insert_eq in H; injection H as <- end.
  eauto 20.
Qed.

(** A URL that is not a string never gets as far as opening a file. *)
Lemma try_not_str url id folder w :
  (forall u, url <> PyStr u) ->
  fs (snd (download_imgur_image_try env url id folder w)) = fs w /\
  fst (download_imgur_image_try env url id folder w) <> Ret "success".
Proof.
  intros Hurl. unfold_ops. cbn [fs net_log stdout].
  repeat (case_match; simplify_eq/=; try done); try (by split);
    by destruct (Hurl _ eq_refl).
Qed.

(** The body cannot be read: the file has been opened, hence truncated. *)
Lemma try_body_unread u id folder w resp e :
  http_answer env (net_log w) (SessionGet (PyStr u)) = Ret resp ->
  status_code resp = 200%Z ->
  PyStr.str_in "image" (headers_get_content_type resp) = true ->
  let target := PyStr.os_path_join folder (id +:+ "." +:+ find_image_url_extension u) in
  open_wb_error env target = None ->
  content resp = Raise e ->
  download_imgur_image_try env (PyStr u) id folder w =
  (Raise e,
   MkWorld (<[realpath env target := []]> (fs w))
     (net_log w ++ [SessionGet (PyStr u)]) (stdout w)).
Proof.
  intros Hget Hcode Himg target Hopen Hbody.
  unfold download_imgur_image_try, bind. rewrite net_get_run, Hget, Hcode.
  simpl. rewrite Himg. simpl. fold target.
  unfold write_file. rewrite Hopen. unfold bind, fs_update, lift. simpl.
  by rewrite Hbody.
Qed.

(** The statuses the [try] block can end with. *)
Lemma try_status url id folder w st w' :
  download_imgur_image_try env url id folder w = (Ret st, w') ->
  st = "success" \/ st = "Failure: Not an image" \/
  st = "Failure: Placeholder image downloaded" \/
  exists resp, http_answer env (net_log w) (SessionGet url) = Ret resp /\
    status_code resp <> 200%Z /\
    st = "Error " +:+ PyStr.str_of_int (status_code resp).
Proof.
  unfold_ops. cbn [fs net_log stdout].
  repeat (case_match; simplify_eq/=; try done); intros; simplify_eq/=; eauto.
  do 3 right. eexists. split; [done|]. split; [|done].
  by apply Z.eqb_neq.
Qed.

End TryFacts.

Lemma failure_not_success m : "Failure: " +:+ m <> "success".
Proof. discriminate. Qed.

Lemma run_status env url id folder verbose w :
  fst (download_imgur_image env url id folder verbose w) =
  Ret (if py_eq url (PyStr "unrecovered") then "URL wasnt recovered"
       else match fst (download_imgur_image_try env url id folder w) with
            | Ret st => st
            | Raise e => "Failure: " +:+ exn_msg e
            end).
Proof. by rewrite download_imgur_image_run. Qed.

Lemma py_eq_false_ne a b : a <> b -> py_eq a b = false.
Proof.
  intros H. destruct (py_eq a b) eqn:E; [|done]. by apply py_eq_true in E.
Qed.

(** ** The direct fetcher, beyond the claims *)

(** X1: whatever the URL and whatever happens, [download_imgur_image] calls
    the session's [get] exactly once, with the URL it was given. *)
Theorem download_imgur_image_one_call
    (env : Env) (url : pyval) (id folder : string) (verbose : bool) (w : World) :
  net_log (snd (download_imgur_image env url id folder verbose w)) =
  net_log w ++ [SessionGet url].
Proof. by rewrite download_imgur_image_net_log, try_net_log. Qed.

(** X2: a response whose status is not 200 gives the status [Error ]
    followed by the code in decimal, and leaves the file system as it was. *)
Theorem download_imgur_image_error_status
    (env : Env) (url : pyval) (id folder : string) (verbose : bool) (w : World)
    (resp : response) :
  url <> PyStr "unrecovered" ->
  http_answer env (net_log w) (SessionGet url) = Ret resp ->
  status_code resp <> 200%Z ->
  fst (download_imgur_image env url id folder verbose w) =
    Ret ("Error " +:+ PyStr.str_of_int (status_code resp)) /\
  fs (snd (download_imgur_image env url id folder verbose w)) = fs w.
Proof.
  intros Hurl Hget Hcode.
  rewrite run_status, download_imgur_image_fs.
  rewrite (try_not_200 env url id folder w resp Hget Hcode).
  by rewrite py_eq_false_ne.
Qed.

Lemma download_imgur_image_error_status_witness :
  fst (download_imgur_image Sample.env (PyStr "https://i.imgur.com/gone.png")
         "img1" "out" false Sample.world) = Ret "Error 404" /\
  fs (snd (download_imgur_image Sample.env (PyStr "https://i.imgur.com/gone.png")
         "img1" "out" false Sample.world)) = fs Sample.world.
Proof.
  apply (download_imgur_image_error_status Sample.env
           (PyStr "https://i.imgur.com/gone.png") "img1" "out" false Sample.world
           (Response 404 (Some "text/html") (Ret Sample.html_body)));
    [discriminate | reflexivity | discriminate].
Defined.

(** X3: when the request itself raises, the status is [Failure: ] followed
    by the exception's message, and the file system is left as it was. *)
Theorem download_imgur_image_request_fails
    (env : Env) (url : pyval) (id folder : string) (verbose : bool) (w : World)
    (e : exn) :
  url <> PyStr "unrecovered" ->
  http_answer env (net_log w) (SessionGet url) = Raise e ->
  fst (download_imgur_image env url id folder verbose w) =
    Ret ("Failure: " +:+ exn_msg e) /\
  fs (snd (download_imgur_image env url id folder verbose w)) = fs w.
Proof.
  intros Hurl Hget.
  rewrite run_status, download_imgur_image_fs.
  rewrite (try_transport_raises env url id folder w e Hget).
  by rewrite py_eq_false_ne.
Qed.

Lemma download_imgur_image_request_fails_witness :
  fst (download_imgur_image Sample.env (PyStr "i.imgur.com/abc123.png")
         "img1" "out" false Sample.world) =
    Ret "Failure: Invalid URL 'i.imgur.com/abc123.png': No scheme supplied" /\
  fs (snd (download_imgur_image Sample.env (PyStr "i.imgur.com/abc123.png")
         "img1" "out" false Sample.world)) = fs Sample.world.
Proof.
  apply (download_imgur_image_request_fails Sample.env
           (PyStr "i.imgur.com/abc123.png") "img1" "out" false Sample.world
           (Exception "Invalid URL 'i.imgur.com/abc123.png': No scheme supplied"));
    [discriminate | reflexivity].
Defined.



(** X5: [download_imgur_image] changes no file other than the one its
    target path names; with a URL that is not a string there is no target and
    no file changes at all.  Files are told apart by [realpath]: a path
    spelled differently from the target but naming the same file is not
    protected. *)
Theorem download_imgur_image_frame
    (env : Env) (url : pyval) (id folder : string) (verbose : bool) (w : World)
    (file : string) :
  (forall u, url = PyStr u ->
     file <> realpath env
       (PyStr.os_path_join folder (id +:+ "." +:+ find_image_url_extension u))) ->
  fs (snd (download_imgur_image env url id folder verbose w)) !! file
    = fs w !! file.
Proof.
  intros Hp. rewrite download_imgur_image_fs. by apply try_frame.
Qed.

Lemma download_imgur_image_frame_witness :
  fs (snd (download_imgur_image Sample.env (PyStr "https://i.imgur.com/abc123.png")
         "img1" "out" false Sample.world)) !! realpath Sample.env placeholder_path =
  fs Sample.world !! realpath Sample.env placeholder_path.
Proof.
  apply (download_imgur_image_frame Sample.env
           (PyStr "https://i.imgur.com/abc123.png") "img1" "out" false Sample.world).
  intros u [= <-]. discriminate.
Defined.

(** X6: the status [success] is returned only when the URL is a string, the
    response had status 200 and an image content type, the target file now
    holds exactly the response body, and the body and the placeholder asset
    decode to different pixel sequences. *)
Theorem download_imgur_image_success_inv
    (env : Env) (url : pyval) (id folder : string) (verbose : bool) (w : World) :
  fst (download_imgur_image env url id folder verbose w) = Ret "success" ->
  exists u resp body px pbody ppx,
    url = PyStr u /\
    http_answer env (net_log w) (SessionGet url) = Ret resp /\
    status_code resp = 200%Z /\
    contains "image" (headers_get_content_type resp) /\
    content resp = Ret body /\
    fs (snd (download_imgur_image env url id folder verbose w)) !!
      realpath env
        (PyStr.os_path_join folder (id +:+ "." +:+ find_image_url_extension u))
      = Some body /\
    image_getdata env body = Ret px /\
    fs (snd (download_imgur_image env url id folder verbose w))
      !! realpath env placeholder_path = Some pbody /\
    image_getdata env pbody = Ret ppx /\
    px <> ppx.
Proof.
  rewrite run_status, download_imgur_image_fs.
  destruct (py_eq url (PyStr "unrecovered")); [discriminate|].
  destruct (download_imgur_image_try env url id folder w) as [[st|e] w'] eqn:E;
    cbn [fst snd]; [|by intros [= ?%failure_not_success]].
  intros [= ->].
  destruct (try_success_inv env _ _ _ _ _ E)
    as (u & resp & body & px & pbody & ppx & -> & ? & ? & Himg & ? & Hfs & ? & ? & ? & ?).
  exists u, resp, body, px, pbody, ppx.
  apply str_in_iff in Himg. repeat split; try done.
  by rewrite Hfs, lookup_insert_eq.
Qed.

Lemma download_imgur_image_success_inv_witness :
  exists u resp body px pbody ppx,
    PyStr "https://i.imgur.com/abc123.png" = PyStr u /\
    http_answer Sample.env (net_log Sample.world)
      (SessionGet (PyStr "https://i.imgur.com/abc123.png")) = Ret resp /\
    status_code resp = 200%Z /\
    contains "image" (headers_get_content_type resp) /\
    content resp = Ret body /\
    fs (snd (download_imgur_image Sample.env (PyStr "https://i.imgur.com/abc123.png")
               "img1" "out" false Sample.world)) !!
      realpath Sample.env
        (PyStr.os_path_join "out" ("img1" +:+ "." +:+ find_image_url_extension u))
      = Some body /\
    image_getdata Sample.env body = Ret px /\
    fs (snd (download_imgur_image Sample.env (PyStr "https://i.imgur.com/abc123.png")
               "img1" "out" false Sample.world)) !! realpath Sample.env placeholder_path
      = Some pbody /\
    image_getdata Sample.env pbody = Ret ppx /\
    px <> ppx.
Proof.
  apply (download_imgur_image_success_inv Sample.env
           (PyStr "https://i.imgur.com/abc123.png") "img1" "out" false Sample.world).
  reflexivity.
Defined.

(** X7: when the response is a 200 image response but its body cannot be
    read, the file has already been opened for writing: the status is
    [Failure: ] followed by the message, and the target path holds an empty
    file, whatever it held before. *)
Theorem download_imgur_image_body_unread
    (env : Env) (u id folder : string) (verbose : bool) (w : World)
    (resp : response) (e : exn) :
  u <> "unrecovered" ->
  http_answer env (net_log w) (SessionGet (PyStr u)) = Ret resp ->
  status_code resp = 200%Z ->
  contains "image" (headers_get_content_type resp) ->
  let target :=
    PyStr.os_path_join folder (id +:+ "." +:+ find_image_url_extension u) in
  open_wb_error env target = None ->
  content resp = Raise e ->
  fst (download_imgur_image env (PyStr u) id folder verbose w) =
    Ret ("Failure: " +:+ exn_msg e) /\
  fs (snd (download_imgur_image env (PyStr u) id folder verbose w))
    !! realpath env target = Some [].
Proof.
  intros Hu Hget Hcode Himg%str_in_iff target Hopen Hbody.
  rewrite run_status, download_imgur_image_fs.
  rewrite (try_body_unread env u id folder w resp e) by done.
  cbn [fst snd fs]. rewrite py_eq_str_false by done.
  split; [done|]. by rewrite lookup_insert_eq.
Qed.

Lemma download_imgur_image_body_unread_witness :
  fs Stalled.world !! "out/img1.png" = Some Sample.png_body /\
  fst (download_imgur_image Stalled.env (PyStr "https://i.imgur.com/stalled.png")
         "img1" "out" false Stalled.world) = Ret "Failure: Connection broken" /\
  fs (snd (download_imgur_image Stalled.env (PyStr "https://i.imgur.com/stalled.png")
         "img1" "out" false Stalled.world)) !! "out/img1.png" = Some [].
Proof.
  split; [reflexivity|].
  apply (download_imgur_image_body_unread Stalled.env
           "https://i.imgur.com/stalled.png" "img1" "out" false Stalled.world
           (Response 200 (Some "image/png") (Raise (Exception "Connection broken")))
           (Exception "Connection broken"));
    first [ reflexivity | discriminate | apply str_in_iff; reflexivity ].
Defined.

(** X8: with [None] as URL, as [download_imgur_album] passes it after a failed
    page request, no file is written and the status is never [success],
    whatever the HTTP client answers. *)
Theorem download_imgur_image_none_url
    (env : Env) (id folder : string) (verbose : bool) (w : World) :
  fs (snd (download_imgur_image env PyNone id folder verbose w)) = fs w /\
  fst (download_imgur_image env PyNone id folder verbose w) <> Ret "success".
Proof.
  rewrite run_status, download_imgur_image_fs.
  destruct (try_not_str env PyNone id folder w) as [Hfs Hst]; [done|].
  split; [done|]. cbn [py_eq].
  destruct (fst (download_imgur_image_try env PyNone id folder w)) as [st|e].
  - congruence.
  - by intros [= ?%failure_not_success].
Qed.

(** X9: [verbose] changes nothing but the console: the status, the files and
    the HTTP calls are the same with and without it; without it nothing is
    printed, with it exactly one line, the identifier, a space and the
    status. *)
Theorem download_imgur_image_verbose
    (env : Env) (url : pyval) (id folder : string) (w : World) :
  let quiet := download_imgur_image env url id folder false w in
  let loud := download_imgur_image env url id folder true w in
  fst loud = fst quiet /\
  fs (snd loud) = fs (snd quiet) /\
  net_log (snd loud) = net_log (snd quiet) /\
  stdout (snd quiet) = stdout w /\
  exists st, fst quiet = Ret st /\ stdout (snd loud) = stdout w ++ [id +:+ " " +:+ st].
Proof.
  cbv zeta. rewrite !download_imgur_image_run. cbn [fst snd fs net_log stdout].
  rewrite try_stdout. repeat split; eauto.
Qed.

(** X10: the status is always one of: [success], [URL wasnt recovered],
    [Error ] followed by a status code other than 200, or [Failure: ]
    followed by a message. *)
Theorem download_imgur_image_status_set
    (env : Env) (url : pyval) (id folder : string) (verbose : bool) (w : World) :
  exists st,
    fst (download_imgur_image env url id folder verbose w) = Ret st /\
    (st = "success" \/ st = "URL wasnt recovered" \/
     (exists code, code <> 200%Z /\ st = "Error " +:+ PyStr.str_of_int code) \/
     (exists msg, st = "Failure: " +:+ msg)).
Proof.
  rewrite run_status. eexists. split; [done|].
  destruct (py_eq url (PyStr "unrecovered")); [by right; left|].
  destruct (download_imgur_image_try env url id folder w) as [[st|e] w'] eqn:E;
    cbn [fst]; [|by do 3 right; eexists].
  destruct (try_status env _ _ _ _ _ _ E)
    as [->|[->|[->|(resp & _ & Hcode & ->)]]].
  - by left.
  - do 3 right. by exists "Not an image".
  - do 3 right. by exists "Placeholder image downloaded".
  - right; right; left. eauto.
Qed.

(** ** The extension resolver, beyond the claims *)

Section ExtensionFacts.

(** What a greedy star hands over is what follows some run of the class. *)
Lemma star_some_run p k g s m :
  Re.star p k g s = Some m ->
  exists run s', s = run +:+ s' /\ PyStr.forallb p run = true /\ k g s' = Some m.
Proof.
  induction s as [|c s IH]; simpl.
  - intros H. by exists "", "".
  - destruct (p c) eqn:Hc; [|intros H; by exists "", (String c s)].
    destruct (Re.star p k g s) as [m'|] eqn:E.
    + intros [= <-]. destruct (IH eq_refl) as (run & s' & -> & Hrun & Hk).
      exists (String c run), s'. rewrite app_cons. simpl. by rewrite Hc.
    + intros H. by exists "", (String c s).
Qed.

Lemma match_at_extension_token s g rest :
  Re.match_at extension_pattern s = Some (g, rest) ->
  exists tok, g = Some tok /\ alnum_token tok.
Proof.
  unfold Re.match_at, extension_pattern.
  unfold Re.seq at 1. unfold Re.chr at 1.
  destruct s as [|a s1]; [done|]. destruct (Ascii.eqb "." a); [|done].
  unfold Re.seq at 1. unfold Re.group1, Re.plus. unfold Re.chr at 1.
  destruct s1 as [|c s2]; [done|]. destruct (Re.is_alnum c) eqn:Hc; [|done].
  intros (run & s' & -> & Hrun & H)%star_some_run. cbv beta in H.
  apply tail_keeps_group in H. subst g.
  rewrite <- app_cons, substring_prefix.
  eexists. split; [done|]. split; [done|]. simpl. by rewrite Hc.
Qed.

Lemma search_extension_token s pre g rest :
  Re.search extension_pattern s = Some (pre, (g, rest)) ->
  exists tok, g = Some tok /\ alnum_token tok.
Proof.
  revert pre. induction s as [|c s IH]; intros pre.
  - rewrite search_nil.
    destruct (Re.match_at extension_pattern "") as [[g0 r0]|] eqn:E; [|done].
    intros [= _ <- _]. by apply match_at_extension_token in E.
  - rewrite search_cons.
    destruct (Re.match_at extension_pattern (String c s)) as [[g0 r0]|] eqn:E.
    + intros [= _ <- _]. by apply match_at_extension_token in E.
    + destruct (Re.search extension_pattern s) as [[pre' [g1 r1]]|]; [|done].
      intros [= _ <- <-]. by apply (IH pre').
Qed.

(** Appending [.jpeg] to a string without a question mark: the scan finds
    no token before the appended one. *)
Lemma span_append_jpeg s :
  no_question_mark s ->
  Spec.query_or_end (snd (PyStr.span Re.is_alnum (s +:+ ".jpeg"))) = false.
Proof.
  unfold no_question_mark. induction s as [|a s IH]; [reflexivity|].
  rewrite app_cons. simpl. intros [Ha Hs]%andb_true_iff.
  destruct (Re.is_alnum a).
  - specialize (IH Hs). by destruct (PyStr.span Re.is_alnum (s +:+ ".jpeg")).
  - simpl. by apply negb_true_iff in Ha.
Qed.

Lemma scan_append_jpeg s :
  no_question_mark s -> Spec.scan (s +:+ ".jpeg") = Some "jpeg".
Proof.
  induction s as [|c s IH]; [reflexivity|].
  intros Hs. assert (no_question_mark s) as Hs'.
  { unfold no_question_mark in *. simpl in Hs. by apply andb_true_iff in Hs as [_ ?]. }
  rewrite app_cons, scan_cons.
  assert (Spec.token_here (String c (s +:+ ".jpeg")) = None) as ->.
  { unfold Spec.token_here. destruct (Ascii.eqb c "."); [|done].
    pose proof (span_append_jpeg s Hs') as Hq.
    destruct (PyStr.span Re.is_alnum (s +:+ ".jpeg")) as [[|t tok] q]; [done|].
    simpl in Hq. by rewrite Hq. }
  by apply IH.
Qed.

End ExtensionFacts.

(** X11: for every string, line feeds included, the extension returned is a
    non-empty run of ASCII letters and digits: it never holds a dot, a slash
    or any other character that would alter the file's path. *)
Theorem find_image_url_extension_alnum (url : string) :
  alnum_token (find_image_url_extension url).
Proof.
  unfold find_image_url_extension.
  destruct (Re.search extension_pattern url) as [[pre [g rest]]|] eqn:E.
  - destruct (search_extension_token _ _ _ _ E) as (tok & -> & Htok). exact Htok.
  - by split.
Qed.

(** ** The post resolver, beyond the claims *)

Lemma search_lit_none_inv l s :
  Re.search (Re.lit l) s = None -> ~ contains l s.
Proof.
  intros Hnone (pre & post & ->). revert Hnone.
  induction pre as [|c pre IH].
  - rewrite app_nil_l. destruct (l +:+ post) as [|d t] eqn:E.
    + rewrite search_nil. unfold Re.match_at. by rewrite <- E, lit_app.
    + rewrite search_cons. unfold Re.match_at. by rewrite <- E, lit_app.
  - rewrite app_cons, search_cons.
    destruct (Re.match_at (Re.lit l) (String c (pre +:+ l +:+ post))); [done|].
    destruct (Re.search (Re.lit l) (pre +:+ l +:+ post)) as [[pre' m]|];
      [done|]. intros _. by apply IH.
Qed.

Lemma search_lit_found l s :
  contains l s -> exists pre post, first_occurrence l s pre post.
Proof.
  intros Hc. destruct (Re.search (Re.lit l) s) as [[pre [g post]]|] eqn:E.
  - exists pre, post. by apply (search_lit_sound _ _ _ g).
  - by apply search_lit_none_inv in E.
Qed.

Lemma no_question_mark_app s t :
  no_question_mark (s +:+ t) <-> no_question_mark s /\ no_question_mark t.
Proof.
  unfold no_question_mark. rewrite forallb_app. apply andb_true_iff.
Qed.

Lemma no_line_feed_app s t :
  no_line_feed (s +:+ t) <-> no_line_feed s /\ no_line_feed t.
Proof.
  unfold no_line_feed. rewrite forallb_app. apply andb_true_iff.
Qed.

(** X12: whenever the URL contains [://imgur.], [download_imgur_post]
    delegates to [download_imgur_image] (it does not give up), with a URL
    that contains [://i.imgur.], ends with [.jpeg] and is seven characters
    longer than the one it was given. *)
Theorem download_imgur_post_delegates
    (env : Env) (url id folder : string) (verbose : bool) (w : World) :
  contains "://imgur." url ->
  exists image_url,
    download_imgur_post env url id folder verbose w =
      download_imgur_image env (PyStr (image_url +:+ ".jpeg")) id folder verbose w /\
    contains "://i.imgur." image_url /\
    String.length (image_url +:+ ".jpeg") = String.length url + 7.
Proof.
  intros (pre & post & [Hurl Hmin])%search_lit_found.
  exists (pre +:+ "://i.imgur." +:+ post). split; [|split].
  - unfold download_imgur_post, Re.sub_first, post_pattern.
    rewrite (search_lit_first _ _ _ _ (conj Hurl Hmin)).
    rewrite bool_decide_eq_true_2 by eauto. by rewrite bind_ret_r.
  - by exists pre, post.
  - rewrite Hurl, !app_length. simpl. lia.
Qed.

Lemma download_imgur_post_delegates_witness :
  exists image_url,
    download_imgur_post Sample.env "https://imgur.com/xyz" "img1" "out" false
      Sample.world =
      download_imgur_image Sample.env (PyStr (image_url +:+ ".jpeg")) "img1" "out"
        false Sample.world /\
    contains "://i.imgur." image_url /\
    String.length (image_url +:+ ".jpeg") = String.length "https://imgur.com/xyz" + 7.
Proof.
  apply (download_imgur_post_delegates Sample.env "https://imgur.com/xyz").
  apply str_in_iff; reflexivity.
Defined.

(** X13: for a post URL with neither a question mark nor a line feed, the
    extension of the URL that [download_imgur_post] fetches is [jpeg]: the
    image is saved under the identifier followed by [.jpeg], whatever dots the
    post URL contains. *)
Theorem download_imgur_post_saves_jpeg (url : string) :
  no_question_mark url -> no_line_feed url ->
  find_image_url_extension
    (Re.sub_first post_pattern "://i.imgur." url +:+ ".jpeg") = "jpeg".
Proof.
  intros Hq Hlf.
  assert (no_question_mark (Re.sub_first post_pattern "://i.imgur." url) /\
          no_line_feed (Re.sub_first post_pattern "://i.imgur." url)) as [Hq' Hlf'].
  { unfold Re.sub_first, post_pattern.
    destruct (Re.search (Re.lit "://imgur.") url) as [[pre [g post]]|] eqn:E;
      [|done].
    apply search_lit_sound in E as [-> _].
    apply no_question_mark_app in Hq as [? [_ ?]%no_question_mark_app].
    apply no_line_feed_app in Hlf as [? [_ ?]%no_line_feed_app].
    split.
    - apply no_question_mark_app. split; [done|].
      by apply no_question_mark_app.
    - apply no_line_feed_app. split; [done|]. by apply no_line_feed_app. }
  rewrite find_image_url_extension_spec.
  - unfold Spec.extension_of. by rewrite scan_append_jpeg.
  - by apply no_line_feed_app.
Qed.

Lemma download_imgur_post_saves_jpeg_witness :
  find_image_url_extension
    (Re.sub_first post_pattern "://i.imgur." "https://imgur.com/v1.2/a.b.png" +:+ ".jpeg")
  = "jpeg".
Proof.
  apply (download_imgur_post_saves_jpeg "https://imgur.com/v1.2/a.b.png");
    reflexivity.
Defined.

(** ** The album resolver, beyond the claims *)

Lemma split_head_no_sep s x xs :
  PyStr.split "?" s = x :: xs -> no_question_mark x.
Proof.
  unfold no_question_mark. revert x xs. induction s as [|a s IH]; intros x xs.
  - by intros [= <- _].
  - simpl. destruct (Ascii.eqb a "?") eqn:Ha; [by intros [= <- _]|].
    destruct (PyStr.split "?" s) as [|y ys]; intros [= <- _]; simpl; rewrite Ha.
    + done.
    + by rewrite (IH y ys).
Qed.

(** X14: what [get_imgur_album_info] returns is [None] or a string, and the
    string is never empty and never holds a question mark. *)
Theorem get_imgur_album_info_result
    (env : Env) (album_url : string) (w w' : World) (v : pyval) :
  get_imgur_album_info env album_url w = (Ret v, w') ->
  v = PyNone \/ exists s, v = PyStr s /\ s <> "" /\ no_question_mark s.
Proof.
  unfold get_imgur_album_info, bind, net_get, lift, ret, raise.
  assert ("unrecovered" <> "" /\ no_question_mark "unrecovered") as Hsentinel
    by (split; [discriminate | reflexivity]).
  repeat (case_match; simplify_eq/=; try done); intros; simplify_eq/=; eauto.
  right. eexists. split; [done|]. split.
  - by apply String.eqb_neq.
  - by eapply split_head_no_sep.
Qed.

Lemma get_imgur_album_info_result_witness :
  PyStr "https://i.imgur.com/abc123.png" = PyNone \/
  exists s, PyStr "https://i.imgur.com/abc123.png" = PyStr s /\ s <> "" /\
            no_question_mark s.
Proof.
  apply (get_imgur_album_info_result Sample.env "https://imgur.com/a/album1"
           Sample.world
           (snd (get_imgur_album_info Sample.env "https://imgur.com/a/album1"
                   Sample.world))).
  reflexivity.
Defined.

(** X15: [get_imgur_album_info] makes exactly one HTTP call, a plain
    [requests.get] of the album URL, and touches neither the files nor the
    console, whatever it returns or raises. *)
Theorem get_imgur_album_info_world
    (env : Env) (album_url : string) (w : World) :
  net_log (snd (get_imgur_album_info env album_url w)) =
    net_log w ++ [RequestsGet (PyStr album_url)] /\
  fs (snd (get_imgur_album_info env album_url w)) = fs w /\
  stdout (snd (get_imgur_album_info env album_url w)) = stdout w.
Proof.
  unfold get_imgur_album_info, bind, net_get, lift, ret, raise.
  repeat (case_match; simplify_eq/=; try done).
Qed.

(** X16: whenever [get_imgur_album_info] yields the sentinel [unrecovered]
    (no Open-Graph image element, or an empty first segment),
    [download_imgur_album] reports [URL wasnt recovered]. *)
Theorem download_imgur_album_unrecovered
    (env : Env) (url id folder : string) (verbose : bool) (w : World) :
  fst (get_imgur_album_info env url w) = Ret (PyStr "unrecovered") ->
  fst (download_imgur_album env url id folder verbose w) = Ret "URL wasnt recovered".
Proof.
  rewrite download_imgur_album_run.
  destruct (get_imgur_album_info env url w) as [[v|e] w1]; cbn [fst]; [|done].
  intros [= ->]. by rewrite run_status.
Qed.

Lemma download_imgur_album_unrecovered_witness :
  fst (download_imgur_album Sample.env "https://imgur.com/a/bare" "img1" "out" false
         Sample.world) = Ret "URL wasnt recovered".
Proof.
  apply (download_imgur_album_unrecovered Sample.env "https://imgur.com/a/bare").
  reflexivity.
Defined.

(** X17: when the album page request is answered with a status other than
    200, [download_imgur_album] goes on to call [download_imgur_image] with
    [None]: a second HTTP call is made, with [None] as URL, no file is
    written and the status is never [success]. *)
Theorem download_imgur_album_page_error
    (env : Env) (url id folder : string) (verbose : bool) (w : World)
    (resp : response) :
  http_answer env (net_log w) (RequestsGet (PyStr url)) = Ret resp ->
  status_code resp <> 200%Z ->
  net_log (snd (download_imgur_album env url id folder verbose w)) =
    net_log w ++ [RequestsGet (PyStr url); SessionGet PyNone] /\
  fs (snd (download_imgur_album env url id folder verbose w)) = fs w /\
  fst (download_imgur_album env url id folder verbose w) <> Ret "success".
Proof.
  intros Hget Hcode. rewrite download_imgur_album_run.
  rewrite (album_info_not_200 env url w resp Hget Hcode).
  rewrite download_imgur_image_net_log, try_net_log.
  rewrite download_imgur_image_fs, run_status. cbn [net_log py_eq].
  destruct (try_not_str env PyNone id folder
              (MkWorld (fs w) (net_log w ++ [RequestsGet (PyStr url)]) (stdout w)))
    as [Hfs Hst]; [done|].
  split; [by rewrite <- app_assoc|]. split; [done|].
  destruct (fst (download_imgur_image_try env PyNone id folder _)) as [st|e].
  - congruence.
  - by intros [= ?%failure_not_success].
Qed.

Lemma download_imgur_album_page_error_witness :
  net_log (snd (download_imgur_album Sample.env "https://imgur.com/a/missing"
                  "img1" "out" false Sample.world)) =
    net_log Sample.world ++
      [RequestsGet (PyStr "https://imgur.com/a/missing"); SessionGet PyNone] /\
  fs (snd (download_imgur_album Sample.env "https://imgur.com/a/missing"
             "img1" "out" false Sample.world)) = fs Sample.world /\
  fst (download_imgur_album Sample.env "https://imgur.com/a/missing"
         "img1" "out" false Sample.world) <> Ret "success".
Proof.
  apply (download_imgur_album_page_error Sample.env "https://imgur.com/a/missing"
           "img1" "out" false Sample.world
           (Response 404 (Some "text/html") (Ret Sample.html_body)));
    [reflexivity | discriminate].
Defined.

(** X18: when the album page has an Open-Graph image element whose content
    has a non-empty first segment, [download_imgur_album] does what
    [download_imgur_image] does with that segment as URL, in the world left
    by the page request. *)
Theorem download_imgur_album_delegates
    (env : Env) (url id folder : string) (verbose : bool) (w : World)
    (resp : response) (page : list Byte.byte) (c seg : string) :
  http_answer env (net_log w) (RequestsGet (PyStr url)) = Ret resp ->
  status_code resp = 200%Z ->
  content resp = Ret page ->
  soup_find_og_image env page = Some (MetaTag (Some c)) ->
  first_segment c seg ->
  seg <> "" ->
  download_imgur_album env url id folder verbose w =
  download_imgur_image env (PyStr seg) id folder verbose
    (MkWorld (fs w) (net_log w ++ [RequestsGet (PyStr url)]) (stdout w)).
Proof.
  intros Hget Hcode Hpage Hsoup [rest Hsplit]%split_first_segment Hseg.
  rewrite download_imgur_album_run.
  unfold get_imgur_album_info, bind. rewrite net_get_run, Hget, Hcode.
  simpl. unfold lift. rewrite Hpage, Hsoup. simpl. rewrite Hsplit.
  by apply String.eqb_neq in Hseg as ->.
Qed.

Lemma download_imgur_album_delegates_witness :
  download_imgur_album Sample.env "https://imgur.com/a/album1" "img1" "out" false
    Sample.world =
  download_imgur_image Sample.env (PyStr "https://i.imgur.com/abc123.png")
    "img1" "out" false
    (MkWorld (fs Sample.world)
       (net_log Sample.world ++ [RequestsGet (PyStr "https://imgur.com/a/album1")])
       (stdout Sample.world)).
Proof.
  apply (download_imgur_album_delegates Sample.env "https://imgur.com/a/album1"
           "img1" "out" false Sample.world
           (Response 200 (Some "text/html") (Ret Sample.album_page))
           Sample.album_page "https://i.imgur.com/abc123.png?fb");
    [reflexivity | reflexivity | reflexivity | reflexivity | | discriminate].
  split; [reflexivity|]. right. by exists "fb".
Defined.

(** ** The classifier, beyond the claims *)

Lemma contains_trans a b c : contains a b -> contains b c -> contains a c.
Proof.
  intros (p' & q' & ->) (p & q & ->).
  exists (p +:+ p'), (q' +:+ q). by rewrite !app_assoc'.
Qed.

(** X19: [clasify_url] gives the unclassified value [-1] exactly for the URLs
    that contain none of [imgur.com], [/a/] and [/gallery/]; a URL with an
    album or gallery segment is classified whatever its host. *)
Theorem clasify_url_unclassified_iff (url : string) :
  clasify_url url = PyInt (-1) <->
  ~ contains "imgur.com" url /\ ~ contains "/a/" url /\ ~ contains "/gallery/" url.
Proof.
  unfold clasify_url. split.
  - destruct (PyStr.str_in "i.imgur.com" url); [done|].
    destruct (PyStr.str_in "/a/" url) eqn:Ha; [done|].
    destruct (PyStr.str_in "/gallery/" url) eqn:Hg; [done|].
    destruct (PyStr.str_in "imgur.com" url) eqn:Hp; [done|].
    intros _. by repeat split; apply str_in_false_iff.
  - intros (Hp & Ha%str_in_false_iff & Hg%str_in_false_iff).
    assert (PyStr.str_in "i.imgur.com" url = false) as ->.
    { apply str_in_false_iff. intros Hcdn. apply Hp.
      apply (contains_trans _ "i.imgur.com"); [|done]. by exists "i.", "". }
    apply str_in_false_iff in Hp. by rewrite Ha, Hg, Hp.
Qed.

Lemma clasify_url_unclassified_iff_witness :
  clasify_url "https://example.com/x.png" = PyInt (-1).
Proof.
  apply (clasify_url_unclassified_iff "https://example.com/x.png").
  repeat split; apply str_in_false_iff; reflexivity.
Defined.

(** ** A target that names the placeholder asset *)



(** The first sample's session checks its URLs as [requests] does. *)
Lemma sample_client_checks : client_checks Sample.env.
Proof.
  intros log [| z | u] Href; simpl; eauto.
  unfold refused_before_send in Href. simpl in Href.
  apply negb_true_iff, str_in_false_iff in Href.
  assert (PyStr.str_in "://" u = false) as ->; [|simpl; eauto].
  apply str_in_false_iff. intros Hc. apply Href.
  apply (contains_trans _ "://"); [by exists "", "//" | done].
Qed.
